(** * chatgpt.py: response normalisation, prompt building and request handling

    A shallow embedding of [src/chatgpt.py].

    Python [str] values are modelled as lists of Unicode code points
    ([pystr := list N]); indices, slices and [len] therefore count code
    points, as they do in Python.  Raising an exception is modelled by the
    [outcome] type, [try ... except] by [try_except].  Python integers are
    unbounded ([Z]); the interpreter's resource limits (recursion depth,
    the digit limit of [int()]) are not modelled. *)

From Stdlib Require Import Ascii String List NArith ZArith Bool Lia.
Import ListNotations.

Set Implicit Arguments.
Set Warnings "-register-all".


(** ** Python strings *)

Module PyStr.

Definition char := N.
Definition pystr := list char.

Definition ch (a : ascii) : char := N_of_ascii a.

(** An ASCII literal of the source, as code points. *)
Definition lit (s : string) : pystr := map ch (list_ascii_of_string s).

(** A literal of the source written in UTF-8, decoded to code points. *)
Fixpoint utf8_decode (bs : list N) : pystr :=
  match bs with
  | [] => []
  | b :: r =>
      if (b <? 128)%N then b :: utf8_decode r
      else if (b <? 224)%N then
        match r with
        | b1 :: r' => ((b - 192) * 64 + (b1 - 128))%N :: utf8_decode r'
        | _ => [b]
        end
      else if (b <? 240)%N then
        match r with
        | b1 :: b2 :: r' =>
            ((b - 224) * 4096 + (b1 - 128) * 64 + (b2 - 128))%N :: utf8_decode r'
        | _ => [b]
        end
      else
        match r with
        | b1 :: b2 :: b3 :: r' =>
            ((b - 240) * 262144 + (b1 - 128) * 4096 + (b2 - 128) * 64 + (b3 - 128))%N
              :: utf8_decode r'
        | _ => [b]
        end
  end.

Definition utf8 (s : string) : pystr := utf8_decode (lit s).

Definition char_eqb : char -> char -> bool := N.eqb.

Fixpoint str_eqb (a b : pystr) : bool :=
  match a, b with
  | [], [] => true
  | x :: a', y :: b' => N.eqb x y && str_eqb a' b'
  | _, _ => false
  end.

(** [c.isspace()] for a single code point, the set [str.strip()] removes. *)
Definition isspace (c : char) : bool :=
  ((9 <=? c) && (c <=? 13) || (28 <=? c) && (c <=? 32)
   || (c =? 133) || (c =? 160) || (c =? 5760)
   || (8192 <=? c) && (c <=? 8202)
   || (c =? 8232) || (c =? 8233) || (c =? 8239) || (c =? 8287)
   || (c =? 12288))%N.

Fixpoint lstrip (s : pystr) : pystr :=
  match s with
  | [] => []
  | c :: r => if isspace c then lstrip r else s
  end.

Definition rstrip (s : pystr) : pystr := rev (lstrip (rev s)).

(** [s.strip()] *)
Definition strip (s : pystr) : pystr := lstrip (rstrip s).

(** [s.startswith(p)] *)
Fixpoint startswith (s p : pystr) {struct p} : bool :=
  match p with
  | [] => true
  | x :: p' =>
      match s with
      | [] => false
      | y :: s' => N.eqb x y && startswith s' p'
      end
  end.

(** [s.find(sub)]: the lowest index at which [sub] occurs; [None] is
    Python's [-1]. *)
Fixpoint find (s sub : pystr) : option nat :=
  if startswith s sub then Some 0
  else match s with
       | [] => None
       | _ :: r => option_map S (find r sub)
       end.

(** [s.rfind(sub)]: the highest index at which [sub] occurs; [None] is
    Python's [-1]. *)
Fixpoint rfind (s sub : pystr) : option nat :=
  match s with
  | [] => if startswith [] sub then Some 0 else None
  | _ :: r =>
      match rfind r sub with
      | Some i => Some (S i)
      | None => if startswith s sub then Some 0 else None
      end
  end.

(** [s[i:]], [s[:j]] and [s[i:j]] for non-negative indices. *)
Definition slice_from (s : pystr) (i : nat) : pystr := skipn i s.
Definition slice_to (s : pystr) (j : nat) : pystr := firstn j s.
Definition slice (s : pystr) (i j : nat) : pystr := firstn (j - i) (skipn i s).

(** [sep.join(xs)] *)
Fixpoint join (sep : pystr) (xs : list pystr) : pystr :=
  match xs with
  | [] => []
  | [x] => x
  | x :: r => x ++ sep ++ join sep r
  end.

(** [s.split(sep)[0]] for a one-character separator: the text before the
    first separator, or all of [s]. *)
Fixpoint split_head (s : pystr) (sep : char) : pystr :=
  match s with
  | [] => []
  | c :: r => if N.eqb c sep then [] else c :: split_head r sep
  end.

(** [sub in s] *)
Fixpoint contains (s sub : pystr) : bool :=
  startswith s sub ||
  match s with
  | [] => false
  | _ :: r => contains r sub
  end.

End PyStr.
Import PyStr.

(** ** Exceptions *)

Inductive exn : Type :=
| JSONDecodeError
| ValueError (msg : pystr)
| RuntimeError (msg : pystr)
| AttributeError
| TypeError
| RequestError
| BadRequest.

Inductive outcome (A : Type) : Type :=
| Return (a : A)
| Raise (e : exn).
Arguments Return {A} a.
Arguments Raise {A} e.

Definition bind {A B} (m : outcome A) (f : A -> outcome B) : outcome B :=
  match m with
  | Return a => f a
  | Raise e => Raise e
  end.

(** [try: m  except Exception: h] *)
Definition try_except {A} (m : outcome A) (h : exn -> outcome A) : outcome A :=
  match m with
  | Return a => Return a
  | Raise e => h e
  end.

Definition is_JSONDecodeError (e : exn) : bool :=
  match e with JSONDecodeError => true | _ => false end.

(** ** Fence stripping *)

Definition fence : pystr := Eval vm_compute in lit "```".
Definition newline : pystr := [10%N].

(** [_strip_code_fence], lines 159-184. *)
Definition _strip_code_fence (text : pystr) : pystr :=
  match text with
  | [] => text
  | _ =>
      let raw := strip text in
      if negb (startswith raw fence) then raw
      else
        match find raw newline with
        | None => raw
        | Some newline_idx =>
            let trimmed := slice_from raw (newline_idx + 1) in
            let trimmed :=
              match rfind trimmed fence with
              | Some closing_idx => slice_to trimmed closing_idx
              | None => trimmed
              end in
            strip trimmed
        end
  end.

(** ** JSON values and [json.loads] *)

(** The values [json.loads] builds.  [JNull] is Python's [None].  A float
    is kept as the text [float()] is applied to ([NaN], [Infinity] and
    [-Infinity] included); an object is the list of the dict's items in
    insertion order. *)
Inductive json : Type :=
| JNull
| JBool (b : bool)
| JInt (z : Z)
| JFloat (lexeme : pystr)
| JString (s : pystr)
| JArray (items : list json)
| JObject (items : list (pystr * json)).

(** [d[k] = v] on a dict kept in insertion order. *)
Fixpoint dict_set (d : list (pystr * json)) (k : pystr) (v : json)
  : list (pystr * json) :=
  match d with
  | [] => [(k, v)]
  | (k', v') :: r =>
      if str_eqb k' k then (k', v) :: r else (k', v') :: dict_set r k v
  end.

(** [dict(pairs)] *)
Definition dict_of_pairs (pairs : list (pystr * json)) : list (pystr * json) :=
  fold_left (fun d kv => dict_set d (fst kv) (snd kv)) pairs [].

(** [d.get(k, default)] *)
Fixpoint dict_get_or (d : list (pystr * json)) (k : pystr) (default : json)
  : json :=
  match d with
  | [] => default
  | (k', v) :: r => if str_eqb k' k then v else dict_get_or r k default
  end.

(** [d.get(k)]; a missing key gives [None], that is [JNull]. *)
Definition dict_get (d : list (pystr * json)) (k : pystr) : json :=
  dict_get_or d k JNull.

Module Decoder.

(** The result of a scanner on a text: a value and the text that follows
    it, a decode error, or recursion cut off by the fuel bound. *)
Inductive pres : Type :=
| POk (v : json) (rest : pystr)
| PFail
| PFuel.

(** [WHITESPACE]: space, tab, line feed and carriage return. *)
Definition is_ws (c : char) : bool :=
  ((c =? 32) || (c =? 9) || (c =? 10) || (c =? 13))%N.

Fixpoint skip_ws (s : pystr) : pystr :=
  match s with
  | [] => []
  | c :: r => if is_ws c then skip_ws r else s
  end.

Definition is_digit (c : char) : bool := ((48 <=? c) && (c <=? 57))%N.

(** The longest run of [[0-9]] at the head of a text, and what follows. *)
Fixpoint take_digits (s : pystr) : pystr * pystr :=
  match s with
  | [] => ([], [])
  | c :: r =>
      if is_digit c
      then let '(ds, r') := take_digits r in (c :: ds, r')
      else ([], s)
  end.

(** [int(ds)] for a run of decimal digits. *)
Definition digits_value (ds : pystr) : Z :=
  fold_left (fun acc c => (acc * 10 + (Z.of_N c - 48))%Z) ds 0%Z.

(** The digits of the integer part of [NUMBER_RE]: a single zero, or a
    non-zero digit followed by any digits. *)
Definition match_digits (s : pystr) : option (pystr * pystr) :=
  match s with
  | c :: r =>
      if (c =? 48)%N then Some ([c], r)
      else if is_digit c
           then let '(ds, r') := take_digits r in Some (c :: ds, r')
           else None
  | [] => None
  end.

(** The integer part of [NUMBER_RE]: an optional minus sign, then the
    digits. *)
Definition match_integer (s : pystr) : option (bool * pystr * pystr) :=
  let '(neg, s1) :=
    match s with
    | c :: r => if (c =? 45)%N then (true, r) else (false, s)
    | [] => (false, s)
    end in
  match match_digits s1 with
  | Some (ds, r) => Some (neg, ds, r)
  | None => None
  end.

(** The optional fraction of [NUMBER_RE]: a dot and at least one digit. *)
Definition match_frac (s : pystr) : pystr * pystr :=
  match s with
  | c :: r =>
      if (c =? 46)%N then
        match take_digits r with
        | (d :: ds, r') => (c :: d :: ds, r')
        | ([], _) => ([], s)
        end
      else ([], s)
  | [] => ([], s)
  end.

(** The optional exponent of [NUMBER_RE]: e or E, an optional sign and at
    least one digit. *)
Definition match_exp (s : pystr) : pystr * pystr :=
  match s with
  | c :: r =>
      if ((c =? 101) || (c =? 69))%N then
        let '(sign, r1) :=
          match r with
          | g :: r' => if ((g =? 45) || (g =? 43))%N then ([g], r') else ([], r)
          | [] => ([], r)
          end in
        match take_digits r1 with
        | (d :: ds, r2) => (c :: sign ++ d :: ds, r2)
        | ([], _) => ([], s)
        end
      else ([], s)
  | [] => ([], s)
  end.

(** [match_number] with the conversion done in [_scan_once]: [int] when the
    match has neither fraction nor exponent, [float] otherwise. *)
Definition match_number (s : pystr) : option (json * pystr) :=
  match match_integer s with
  | None => None
  | Some (neg, ds, r) =>
      let '(frac, r1) := match_frac r in
      let '(exp, r2) := match_exp r1 in
      match frac, exp with
      | [], [] =>
          Some (JInt (if neg then - digits_value ds else digits_value ds)%Z, r2)
      | _, _ =>
          Some (JFloat ((if neg then [45%N] else []) ++ ds ++ frac ++ exp), r2)
      end
  end.

Definition hexval (c : char) : option N :=
  if is_digit c then Some (c - 48)%N
  else if ((97 <=? c) && (c <=? 102))%N then Some (c - 87)%N
  else if ((65 <=? c) && (c <=? 70))%N then Some (c - 55)%N
  else None.

(** [_decode_uXXXX]: four hexadecimal digits. *)
Definition hex4 (s : pystr) : option (N * pystr) :=
  match s with
  | a :: b :: c :: d :: r =>
      match hexval a, hexval b, hexval c, hexval d with
      | Some x, Some y, Some z, Some w =>
          Some (((x * 16 + y) * 16 + z) * 16 + w, r)%N
      | _, _, _, _ => None
      end
  | _ => None
  end.

(** The [BACKSLASH] table. *)
Definition backslash (esc : char) : option char :=
  if (esc =? 34)%N then Some 34%N
  else if (esc =? 92)%N then Some 92%N
  else if (esc =? 47)%N then Some 47%N
  else if (esc =? 98)%N then Some 8%N
  else if (esc =? 102)%N then Some 12%N
  else if (esc =? 110)%N then Some 10%N
  else if (esc =? 114)%N then Some 13%N
  else if (esc =? 116)%N then Some 9%N
  else None.

(** One step of [scanstring]'s loop: the closing quote, one decoded
    character, or an error. *)
Inductive str_item : Type :=
| SEnd (rest : pystr)
| SChar (c : char) (rest : pystr)
| SErr.

Definition string_item (strict : bool) (s : pystr) : str_item :=
  match s with
  | [] => SErr
  | c :: r =>
      if (c =? 34)%N then SEnd r
      else if (c =? 92)%N then
        match r with
        | [] => SErr
        | esc :: r' =>
            if (esc =? 117)%N then
              match hex4 r' with
              | None => SErr
              | Some (uni, r1) =>
                  if ((55296 <=? uni) && (uni <=? 56319))%N then
                    match r1 with
                    | b :: u :: r2 =>
                        if ((b =? 92) && (u =? 117))%N then
                          match hex4 r2 with
                          | None => SErr
                          | Some (uni2, r3) =>
                              if ((56320 <=? uni2) && (uni2 <=? 57343))%N
                              then SChar (65536 + ((uni - 55296) * 1024 + (uni2 - 56320)))%N r3
                              else SChar uni r1
                          end
                        else SChar uni r1
                    | _ => SChar uni r1
                    end
                  else SChar uni r1
              end
            else
              match backslash esc with
              | Some c' => SChar c' r'
              | None => SErr
              end
        end
      else if (c <? 32)%N then (if strict then SErr else SChar c r)
      else SChar c r
  end.

(** What the scanner is doing: [_scan_once] at the start of a value, the
    loop of [scanstring] with the characters decoded so far, the loop of
    [JSONArray] with the values appended so far, or the loop of
    [JSONObject] (just after the opening quote of a key) with the pairs
    appended so far. *)
Inductive mode : Type :=
| MValue
| MString (acc : pystr)
| MArray (values : list json)
| MObject (pairs : list (pystr * json)).

Definition lit_null : pystr := Eval vm_compute in lit "null".
Definition lit_true : pystr := Eval vm_compute in lit "true".
Definition lit_false : pystr := Eval vm_compute in lit "false".
Definition lit_NaN : pystr := Eval vm_compute in lit "NaN".
Definition lit_Infinity : pystr := Eval vm_compute in lit "Infinity".
Definition lit_mInfinity : pystr := Eval vm_compute in lit "-Infinity".

(** A fixed word at the head of the text: [string[idx:idx + k] == w]. *)
Definition keyword (w : pystr) (v : json) (s : pystr) : option (json * pystr) :=
  if startswith s w then Some (v, skipn (length w) s) else None.

(** The non-recursive cases of [_scan_once], in its order: the three
    constants, a number, then [NaN], [Infinity] and [-Infinity]. *)
Definition scan_atom (s : pystr) : option (json * pystr) :=
  match keyword lit_null JNull s with
  | Some x => Some x
  | None =>
  match keyword lit_true (JBool true) s with
  | Some x => Some x
  | None =>
  match keyword lit_false (JBool false) s with
  | Some x => Some x
  | None =>
  match match_number s with
  | Some x => Some x
  | None =>
  match keyword lit_NaN (JFloat lit_NaN) s with
  | Some x => Some x
  | None =>
  match keyword lit_Infinity (JFloat lit_Infinity) s with
  | Some x => Some x
  | None => keyword lit_mInfinity (JFloat lit_mInfinity) s
  end end end end end end.

Section Body.

Variable strict : bool.
Variable rec : mode -> pystr -> pres.

(** One unfolding of the scanner, the recursive calls going to [rec]. *)
Definition scan_body (m : mode) (s : pystr) : pres :=
  match m with
  | MString acc =>
      match string_item strict s with
      | SEnd r => POk (JString acc) r
      | SChar c r => rec (MString (acc ++ [c])) r
      | SErr => PFail
      end
  | MValue =>
      match s with
      | [] => PFail
      | c :: r =>
          if (c =? 34)%N then rec (MString []) r
          else if (c =? 123)%N then
            match skip_ws r with
            | d :: r2 =>
                if (d =? 125)%N then POk (JObject []) r2
                else if (d =? 34)%N then rec (MObject []) r2
                else PFail
            | [] => PFail
            end
          else if (c =? 91)%N then
            match skip_ws r with
            | d :: r2 =>
                if (d =? 93)%N then POk (JArray []) r2
                else rec (MArray []) (d :: r2)
            | [] => PFail
            end
          else
            match scan_atom s with
            | Some (v, r') => POk v r'
            | None => PFail
            end
      end
  | MArray values =>
      match rec MValue s with
      | POk v r =>
          match skip_ws r with
          | d :: r2 =>
              if (d =? 93)%N then POk (JArray (values ++ [v])) r2
              else if (d =? 44)%N then rec (MArray (values ++ [v])) (skip_ws r2)
              else PFail
          | [] => PFail
          end
      | PFail => PFail
      | PFuel => PFuel
      end
  | MObject pairs =>
      match rec (MString []) s with
      | POk (JString key) r =>
          match skip_ws r with
          | d :: r2 =>
              if (d =? 58)%N then
                match rec MValue (skip_ws r2) with
                | POk v r4 =>
                    match skip_ws r4 with
                    | e :: r6 =>
                        if (e =? 125)%N
                        then POk (JObject (dict_of_pairs (pairs ++ [(key, v)]))) r6
                        else if (e =? 44)%N then
                          match skip_ws r6 with
                          | q :: r8 =>
                              if (q =? 34)%N
                              then rec (MObject (pairs ++ [(key, v)])) r8
                              else PFail
                          | [] => PFail
                          end
                        else PFail
                    | [] => PFail
                    end
                | PFail => PFail
                | PFuel => PFuel
                end
              else PFail
          | [] => PFail
          end
      | POk _ _ => PFail
      | PFail => PFail
      | PFuel => PFuel
      end
  end.

End Body.

(** The scanner, its recursion bounded by [fuel]. *)
Fixpoint scan (strict : bool) (fuel : nat) : mode -> pystr -> pres :=
  match fuel with
  | O => fun _ _ => PFuel
  | S n => scan_body strict (scan strict n)
  end.

(** Fuel that the scanner never exhausts on [s] (lemma [scan_fuel]). *)
Definition enough (s : pystr) : nat := 2 * length s + 2.

(** [JSONDecoder.decode]: skip white space, scan one value, skip white
    space, and reject any text left over. *)
Definition decode (strict : bool) (s : pystr) : option json :=
  match scan strict (enough s) MValue (skip_ws s) with
  | POk v r => match skip_ws r with [] => Some v | _ :: _ => None end
  | _ => None
  end.

End Decoder.

(** [json.loads(s)] and [json.loads(s, strict=False)]: every failure of the
    decoder is a [JSONDecodeError].  (A text starting with U+FEFF is
    rejected by [json.loads] before decoding; the decoder rejects it too.) *)
Definition json_loads (strict : bool) (s : pystr) : outcome json :=
  match Decoder.decode strict s with
  | Some v => Return v
  | None => Raise JSONDecodeError
  end.

(** ** Recovery of a JSON value from noisy text *)

(** [ch in '[{'] for a single character. *)
Definition is_open (c : char) : bool := ((c =? 91) || (c =? 123))%N.

(** The [enumerate] loop of [_extract_json], lines 140-144: the index of
    the first opening bracket or brace. *)
Fixpoint first_open (text : pystr) : option nat :=
  match text with
  | [] => None
  | c :: r => if is_open c then Some 0 else option_map S (first_open r)
  end.

(** [range(hi, lo, -1)]: [hi], [hi - 1], ..., [lo + 1]. *)
Fixpoint range_down (hi lo : nat) : list nat :=
  match hi with
  | O => []
  | S h => if lo <? hi then hi :: range_down h lo else []
  end.

(** The body of the candidate loop, lines 148-155, over the end positions
    still to be tried; falling out of the loop returns [None]. *)
Fixpoint try_candidates (text : pystr) (start : nat) (js : list nat)
  : outcome json :=
  match js with
  | [] => Return JNull
  | j :: js' =>
      let candidate := slice text start j in
      try_except (json_loads true candidate) (fun _ =>
        try_except (json_loads false candidate) (fun _ =>
          try_candidates text start js'))
  end.

(** [_extract_json], lines 137-156.  Python's [None] is [JNull]. *)
Definition _extract_json (text : pystr) : outcome json :=
  match text with
  | [] => Return JNull
  | _ =>
      match first_open text with
      | None => Return JNull
      | Some start =>
          try_candidates text start (range_down (length text) start)
      end
  end.

Definition is_None (v : json) : bool :=
  match v with JNull => true | _ => false end.

Definition unparsable_msg : pystr :=
  Eval vm_compute in utf8 "Anthropic zwrócił nieparsowalny tekst: ".

(** The parsing of the model text in [generate_ideas], lines 198-209 (the
    specification's [normalize]): strip the fence, parse strictly, fall
    back on [_extract_json] when the strict parse raises
    [JSONDecodeError], and raise [ValueError] with [text[:300]] when no
    value other than [None] comes out. *)
Definition normalize (raw : pystr) : outcome json :=
  let text := _strip_code_fence raw in
  let unparsable := Raise (ValueError (unparsable_msg ++ slice_to text 300)) in
  match json_loads true text with
  | Return parsed => if negb (is_None parsed) then Return parsed else unparsable
  | Raise e =>
      if is_JSONDecodeError e then
        bind (_extract_json text) (fun parsed =>
          if negb (is_None parsed) then Return parsed else unparsable)
      else Raise e
  end.

(** ** Prompt building *)

Definition nl : pystr := [10%N].
Definition dq : pystr := [34%N].

(** [sep.join(xs)] on Python values: [TypeError] unless every item is a
    [str]. *)
Fixpoint strs_of (xs : list json) : option (list pystr) :=
  match xs with
  | [] => Some []
  | JString s :: r => option_map (cons s) (strs_of r)
  | _ :: _ => None
  end.

Definition join_values (sep : pystr) (xs : list json) : outcome pystr :=
  match strs_of xs with
  | Some ss => Return (join sep ss)
  | None => Raise TypeError
  end.

Definition comma_space : pystr := Eval vm_compute in lit ", ".
Definition brak : pystr := Eval vm_compute in lit "brak".

Definition prompt_head : pystr := Eval vm_compute in
  nl ++ utf8 "Jesteś ekspertem od marketingu." ++ nl ++ utf8 "Dziś jest ".
Definition prompt_industry : pystr := Eval vm_compute in
  lit "." ++ nl ++ utf8 "Branża: ".
Definition prompt_holidays : pystr := Eval vm_compute in
  lit "." ++ nl ++ utf8 "Święta dzisiaj: ".
Definition prompt_tail : pystr := Eval vm_compute in
  lit "." ++ nl ++ nl
  ++ utf8 "Podaj 2-3 pomysły na kampanię marketingową w dokładnym formacie JSON, np.:"
  ++ nl ++ nl
  ++ lit "[" ++ nl
  ++ lit "  {" ++ nl
  ++ lit "    " ++ dq ++ utf8 "tytuł" ++ dq ++ lit ": " ++ dq
     ++ utf8 "Przykładowy tytuł" ++ dq ++ lit "," ++ nl
  ++ lit "    " ++ dq ++ lit "opis" ++ dq ++ lit ": " ++ dq
     ++ utf8 "Krótki opis kampanii." ++ dq ++ nl
  ++ lit "  }" ++ nl
  ++ lit "]" ++ nl ++ nl
  ++ utf8 "WAŻNE: Zwróć TYLKO czysty JSON bez żadnych komentarzy, wyjaśnień ani znaczników markdown (```json). "
  ++ nl
  ++ utf8 "Odpowiedź musi zaczynać się od [ i kończyć się na ]." ++ nl.

(** [build_prompt], lines 115-135.  [holidays] is the list built by
    [get_holidays]; [industry] and [date] are [str]. *)
Definition build_prompt (industry date : pystr) (holidays : list json)
  : outcome pystr :=
  bind (match holidays with
        | [] => Return brak
        | _ :: _ => join_values comma_space holidays
        end) (fun holidays_text =>
  Return (prompt_head ++ date ++ prompt_industry ++ industry
          ++ prompt_holidays ++ holidays_text ++ prompt_tail)).

(** ** The service: holidays, the model call, idea generation *)

(** The module's settings, lines 17-25. *)
Record config : Type := {
  ANTHROPIC_API_KEY : pystr;
  ALLOW_MOCKS : bool
}.

Section Service.

(** [float(lexeme) != 0.0], the truth value of a float. *)
Variable float_nonzero : pystr -> bool.

(** The holiday service: [requests.get(url)], [raise_for_status()] and
    [response.json()] together, as the decoded body or the exception. *)
Variable holiday_service : pystr -> outcome json.

(** The Messages API, through the SDK client or [requests.post]: the
    [texts] collected from the response's content blocks (lines 66-95), or
    the exception. *)
Variable messages_api : pystr -> outcome (list pystr).

Variable cfg : config.

(** [bool(v)] *)
Definition truthy (v : json) : bool :=
  match v with
  | JNull => false
  | JBool b => b
  | JInt z => negb (z =? 0)%Z
  | JFloat l => float_nonzero l
  | JString s => match s with [] => false | _ => true end
  | JArray l => match l with [] => false | _ => true end
  | JObject l => match l with [] => false | _ => true end
  end.

(** [a or b] *)
Definition py_or (a b : json) : json := if truthy a then a else b.

(** [h.get(k)]: only a dict has [get]. *)
Definition get (h : json) (k : pystr) : outcome json :=
  match h with
  | JObject d => Return (dict_get d k)
  | _ => Raise AttributeError
  end.

(** [v == s] for a [str] [s]. *)
Definition eq_str (v : json) (s : pystr) : bool :=
  match v with
  | JString t => str_eqb t s
  | _ => false
  end.

(** [iter(v)]: the items a [for] over [v] visits. *)
Definition iterate (v : json) : outcome (list json) :=
  match v with
  | JArray l => Return l
  | JObject d => Return (map (fun kv => JString (fst kv)) d)
  | JString s => Return (map (fun c => JString [c]) s)
  | _ => Raise TypeError
  end.

Definition k_date : pystr := Eval vm_compute in lit "date".
Definition k_localName : pystr := Eval vm_compute in lit "localName".
Definition k_name : pystr := Eval vm_compute in lit "name".

(** The list comprehension of line 110. *)
Fixpoint matching_names (date : pystr) (hs : list json) : outcome (list json) :=
  match hs with
  | [] => Return []
  | h :: r =>
      bind (get h k_date) (fun d =>
        if eq_str d date then
          bind (get h k_localName) (fun ln =>
          bind (if truthy ln then Return ln else get h k_name) (fun n =>
          bind (matching_names date r) (fun ns => Return (n :: ns))))
        else matching_names date r)
  end.

Definition holidays_url : pystr :=
  Eval vm_compute in lit "https://date.nager.at/api/v3/PublicHolidays/".

(** The body of the [try] of [get_holidays], lines 107-110: the request
    and the comprehension over its decoded body. *)
Definition holidays_request (date country_code : pystr) : outcome (list json) :=
  let year := split_head date 45%N in
  bind (holiday_service (holidays_url ++ year ++ [47%N] ++ country_code))
    (fun holidays => bind (iterate holidays) (matching_names date)).

(** [get_holidays], lines 104-113. *)
Definition get_holidays (date country_code : pystr) : outcome (list json) :=
  try_except (holidays_request date country_code) (fun _ => Return []).

Definition no_key_msg : pystr :=
  Eval vm_compute in utf8 "Brak wartości ANTHROPIC_API_KEY.".
Definition no_text_msg : pystr :=
  Eval vm_compute in utf8 "Brak tekstu w odpowiedzi Anthropic.".

(** [_call_anthropic_messages], lines 46-99. *)
Definition _call_anthropic_messages (prompt : pystr) : outcome pystr :=
  match ANTHROPIC_API_KEY cfg with
  | [] => Raise (RuntimeError no_key_msg)
  | _ :: _ =>
      bind (messages_api prompt) (fun texts =>
        match texts with
        | [] => Raise (ValueError no_text_msg)
        | _ :: _ => Return (strip (join nl texts))
        end)
  end.

Definition k_tytul : pystr := Eval vm_compute in utf8 "tytuł".
Definition k_opis : pystr := Eval vm_compute in lit "opis".
Definition okazja : pystr := Eval vm_compute in utf8 "okazją".
Definition failed_msg : pystr := Eval vm_compute in
  utf8 "Nie udało się wygenerować pomysłów — Anthropic nie zwrócił poprawnej odpowiedzi.".

(** The canned list of lines 215-224. *)
Definition mock_ideas (industry date : pystr) (holidays : list json)
  : outcome json :=
  bind (match holidays with
        | [] => Return okazja
        | _ :: _ => join_values comma_space holidays
        end) (fun occasion =>
  Return (JArray
    [ JObject (dict_of_pairs
        [ (k_tytul, JString (lit "Szybka promocja dla " ++ industry));
          (k_opis, JString (utf8 "Krótkie akcje związane z " ++ occasion
                            ++ lit " na " ++ date ++ lit ".")) ]);
      JObject (dict_of_pairs
        [ (k_tytul, JString (lit "Konkurs social dla " ++ industry));
          (k_opis, JString (utf8 "Konkurs z hashtagiem i nagrodami, promowany w social media.")) ])
    ])).

(** [generate_ideas], lines 189-226. *)
Definition generate_ideas (industry date country_code : pystr) : outcome json :=
  bind (get_holidays date country_code) (fun holidays =>
  bind (build_prompt industry date holidays) (fun prompt =>
    let fallback :=
      if ALLOW_MOCKS cfg then mock_ideas industry date holidays
      else Raise (RuntimeError failed_msg) in
    match ANTHROPIC_API_KEY cfg with
    | [] => fallback
    | _ :: _ =>
        match bind (_call_anthropic_messages prompt) normalize with
        | Return parsed => Return parsed
        | Raise _ => fallback
        end
    end)).

End Service.

(** ** The HTTP handlers *)

Record response : Type := {
  status : nat;
  body : json
}.

(** [jsonify(v)] and [jsonify(v), code] *)
Definition jsonify (v : json) : response := {| status := 200; body := v |}.
Definition jsonify_status (v : json) (code : nat) : response :=
  {| status := code; body := v |}.

(** A POST request as the handler reads it: [request.is_json] and what
    [request.get_json()] does. *)
Record post_request : Type := {
  is_json : bool;
  get_json : outcome json
}.

(** One call of [generate_ideas] with its arguments. *)
Definition call : Type := (json * json * json)%type.

Definition k_error : pystr := Eval vm_compute in lit "error".
Definition k_industry : pystr := Eval vm_compute in lit "industry".
Definition k_country : pystr := Eval vm_compute in lit "country".
Definition PL : pystr := Eval vm_compute in lit "PL".
Definition get_required_msg : pystr :=
  Eval vm_compute in utf8 "Parametry 'industry' i 'date' są wymagane.".
Definition post_required_msg : pystr :=
  Eval vm_compute in utf8 "'industry' i 'date' są wymagane w JSON.".
Definition json_expected_msg : pystr :=
  Eval vm_compute in lit "Oczekiwany JSON w body.".

Definition error_object (msg : pystr) : json :=
  JObject (dict_of_pairs [(k_error, JString msg)]).

Section Handlers.

Variable float_nonzero : pystr -> bool.

(** [generate_ideas] as the handlers call it, on whatever values the
    request carried. *)
Variable generate_ideas_call : json -> json -> json -> outcome json.

(** [str(e)] *)
Variable str_of_exn : exn -> pystr.

(** [request.args.get(k)] and [request.args.get(k, default)] on the query
    parameters. *)
Fixpoint args_get_or (args : list (pystr * pystr)) (k : pystr) (default : json)
  : json :=
  match args with
  | [] => default
  | (k', v) :: r => if str_eqb k' k then JString v else args_get_or r k default
  end.

(** Lines 244-248 and 262-266: the call of [generate_ideas] under
    [try ... except Exception], with the call recorded. *)
Definition respond (industry date country : json)
  : outcome response * list call :=
  (match generate_ideas_call industry date country with
   | Return ideas => Return (jsonify ideas)
   | Raise e => Return (jsonify_status (error_object (str_of_exn e)) 500)
   end,
   [(industry, date, country)]).

(** [ideas_get], lines 236-248: the response, or the exception that leaves
    the handler, and the calls of [generate_ideas] made. *)
Definition ideas_get (args : list (pystr * pystr))
  : outcome response * list call :=
  let industry := args_get_or args k_industry JNull in
  let date := args_get_or args k_date JNull in
  let country := args_get_or args k_country (JString PL) in
  if negb (truthy float_nonzero industry) || negb (truthy float_nonzero date)
  then (Return (jsonify_status (error_object get_required_msg) 400), [])
  else respond industry date country.

(** [payload.get(k, default)]: only a dict has [get]. *)
Definition payload_get_or (payload : json) (k : pystr) (default : json)
  : outcome json :=
  match payload with
  | JObject d => Return (dict_get_or d k default)
  | _ => Raise AttributeError
  end.

(** [ideas_post], lines 251-266. *)
Definition ideas_post (req : post_request) : outcome response * list call :=
  if negb (is_json req)
  then (Return (jsonify_status (error_object json_expected_msg) 400), [])
  else
    match get_json req with
    | Raise e => (Raise e, [])
    | Return payload =>
        match payload_get_or payload k_industry JNull with
        | Raise e => (Raise e, [])
        | Return industry =>
        match payload_get_or payload k_date JNull with
        | Raise e => (Raise e, [])
        | Return date =>
        match payload_get_or payload k_country (JString PL) with
        | Raise e => (Raise e, [])
        | Return country =>
            if negb (truthy float_nonzero industry)
               || negb (truthy float_nonzero date)
            then (Return (jsonify_status (error_object post_required_msg) 400), [])
            else respond industry date country
        end end end
    end.

End Handlers.

(** ** Definitions used to state the properties *)

(** The wrapping of a body in a [json] fence: the opening marker with its
    language tag, a newline, the body, a newline, the closing marker. *)
Definition fence_json : pystr := Eval vm_compute in lit "```json".
Definition fenced (b : pystr) : pystr :=
  fence_json ++ nl ++ b ++ nl ++ fence.

(** A candidate of [_extract_json] parsed the way its loop does: strictly,
    then leniently, [None] when both raise. *)
Definition parse_candidate (candidate : pystr) : option json :=
  match json_loads true candidate with
  | Return v => Some v
  | Raise _ =>
      match json_loads false candidate with
      | Return v => Some v
      | Raise _ => None
      end
  end.

(** [needle] occurs in [s] as a contiguous run. *)
Definition occurs_in (needle s : pystr) : Prop :=
  exists pre post, s = pre ++ needle ++ post.

(** [start] is the index of the first opening bracket or brace of [text]. *)
Definition first_open_at (text : pystr) (start : nat) : Prop :=
  start < length text /\
  is_open (nth start text 0%N) = true /\
  forall k, k < start -> is_open (nth k text 0%N) = false.

(** [text] has neither an opening bracket nor an opening brace. *)
Definition no_open (text : pystr) : Prop :=
  Forall (fun c => is_open c = false) text.

(** The body made of a bare fence line followed by the line [1]. *)
Definition fence_then_one : pystr := (96 :: 96 :: 96 :: 10 :: 49 :: nil)%N.

(** The line of the prompt that names the holidays. *)
Definition holidays_label : pystr := Eval vm_compute in utf8 "Święta dzisiaj: ".
Definition holidays_line (holidays_text : pystr) : pystr :=
  holidays_label ++ holidays_text ++ [46%N; 10%N].

(** A holiday service that is down: every request raises. *)
Definition service_down (url : pystr) : outcome json := Raise RequestError.

(** A holiday service that answers with a body that is not a list. *)
Definition service_number (url : pystr) : outcome json := Return (JInt 7).

(** A truth value for floats, for inputs that hold none. *)
Definition no_floats (l : pystr) : bool := true.

(** Settings with a key, without and with the mock fallback. *)
Definition cfg_live : config :=
  {| ANTHROPIC_API_KEY := lit "key"; ALLOW_MOCKS := false |}.
Definition cfg_mock : config :=
  {| ANTHROPIC_API_KEY := lit "key"; ALLOW_MOCKS := true |}.

(** A Messages API that is down, and one that answers with prose. *)
Definition api_down (prompt : pystr) : outcome (list pystr) := Raise RequestError.
Definition api_prose (prompt : pystr) : outcome (list pystr) :=
  Return [lit "Sorry, no ideas today."].

(** The shape of the canned list: two records, each with a title and a
    description. *)
Definition two_ideas (v : json) : Prop :=
  exists t1 o1 t2 o2,
    v = JArray [ JObject [(k_tytul, JString t1); (k_opis, JString o1)];
                 JObject [(k_tytul, JString t2); (k_opis, JString o2)] ].

(** A request parameter that is missing ([None]) or empty. *)
Definition missing_or_empty (v : json) : Prop := v = JNull \/ v = JString [].

(** A POST request whose JSON body is the empty list. *)
Definition post_empty_list : post_request :=
  {| is_json := true; get_json := Return (JArray []) |}.

(** Texts made of white space only, and texts with none. *)
Abbreviation spaces := (Forall (fun c : char => isspace c = true)).
Abbreviation solid := (Forall (fun c : char => isspace c = false)).



(** The fuel a scan of [s] in mode [m] needs at most: two units for each
    character, and one more to enter the loop of an array or an object. *)
Definition fuel_needed (m : Decoder.mode) (s : pystr) : nat :=
  2 * length s +
  match m with
  | Decoder.MArray _ | Decoder.MObject _ => 1
  | _ => 0
  end.

(** A JSON array or object. *)
Definition is_container (v : json) : bool :=
  match v with
  | JArray _ | JObject _ => true
  | _ => false
  end.

(** A Python value that is a [str]. *)
Definition is_str (v : json) : bool :=
  match v with
  | JString _ => true
  | _ => false
  end.

(** Texts that hold no backtick. *)
Abbreviation no_backtick := (Forall (fun c : char => c <> 96%N)).

(** The name the comprehension of [get_holidays] takes from a record. *)
Definition record_name (fnz : pystr -> bool) (d : list (pystr * json)) : json :=
  py_or fnz (dict_get d k_localName) (dict_get d k_name).

(** The names of the records of the requested date, in their order. *)
Definition names_on (fnz : pystr -> bool) (date : pystr)
           (records : list (list (pystr * json))) : list json :=
  map (record_name fnz)
      (filter (fun d => eq_str (dict_get d k_date) date) records).

(** The URL [get_holidays] requests. *)
Definition holidays_url_for (date country_code : pystr) : pystr :=
  holidays_url ++ split_head date 45%N ++ [47%N] ++ country_code.

(** Two holiday records, and a service that answers with them. *)
Definition new_year : list (pystr * json) :=
  [ (k_date, JString (lit "2024-01-01"));
    (k_localName, JString (lit "Nowy Rok"));
    (k_name, JString (lit "New Year")) ].
Definition labour_day : list (pystr * json) :=
  [ (k_date, JString (lit "2024-05-01")); (k_name, JString (lit "Labour Day")) ].
Definition service_two (url : pystr) : outcome json :=
  Return (JArray (map JObject [new_year; labour_day])).

(** A holiday record of the date with no name, and a service that answers
    with it. *)
Definition nameless : list (pystr * json) :=
  [ (k_date, JString (lit "2024-01-01")) ].
Definition service_nameless (url : pystr) : outcome json :=
  Return (JArray [JObject nameless]).

(** A Messages API that answers with a JSON list in a fence. *)
Definition api_fenced (prompt : pystr) : outcome (list pystr) :=
  Return [fenced (lit "[1, 2]")].

(** A [generate_ideas] that always fails, a rendering of exceptions, and
    the query of a GET request with an industry and a date. *)
Definition gen_failing (industry date country : json) : outcome json :=
  Raise (RuntimeError failed_msg).
Definition str_of_message (e : exn) : pystr :=
  match e with
  | ValueError msg | RuntimeError msg => msg
  | _ => []
  end.
Definition query_bakery : list (pystr * pystr) :=
  [ (k_industry, lit "Bakery"); (k_date, lit "2024-01-01") ].

(** The kind of value each loop of the scanner builds. *)
Definition mode_shape (m : Decoder.mode) (v : json) : Prop :=
  match m, v with
  | Decoder.MValue, _ => True
  | Decoder.MString _, JString _ => True
  | Decoder.MArray _, JArray _ => True
  | Decoder.MObject _, JObject _ => True
  | _, _ => False
  end.

(** * Properties *)

(** ** Strings *)

Lemma lstrip_head (c : char) (r : pystr) :
  isspace c = false -> lstrip (c :: r) = c :: r.
Proof. intros H; simpl; now rewrite H. Qed.

Lemma rstrip_snoc_keep (s : pystr) (c : char) :
  isspace c = false -> rstrip (s ++ [c]) = s ++ [c].
Proof.
  intros H. unfold rstrip. rewrite rev_app_distr. simpl. rewrite H.
  simpl. now rewrite rev_involutive.
Qed.

Lemma rstrip_snoc_drop (s : pystr) (c : char) :
  isspace c = true -> rstrip (s ++ [c]) = rstrip s.
Proof.
  intros H. unfold rstrip. rewrite rev_app_distr. simpl. now rewrite H.
Qed.

Lemma strip_snoc_drop (s : pystr) (c : char) :
  isspace c = true -> strip (s ++ [c]) = strip s.
Proof. intros H. unfold strip. now rewrite rstrip_snoc_drop. Qed.

Lemma rfind_fence_last (x : pystr) : rfind (x ++ fence) fence = Some (length x).
Proof.
  induction x as [|c x IH]; [reflexivity|].
  change ((c :: x) ++ fence) with (c :: (x ++ fence)).
  cbn [rfind]. now rewrite IH.
Qed.

Lemma firstn_exact {A} (x y : list A) : firstn (length x) (x ++ y) = x.
Proof.
  rewrite firstn_app, Nat.sub_diag, firstn_all. simpl. apply app_nil_r.
Qed.

(** ** Fence stripping *)

Lemma strip_fenced (b : pystr) : strip (fenced b) = fenced b.
Proof.
  unfold strip.
  replace (fenced b)
    with ((fence_json ++ nl ++ b ++ nl ++ [96; 96]%N) ++ [96%N]).
  - rewrite rstrip_snoc_keep by reflexivity. reflexivity.
  - unfold fenced, fence. rewrite <- !app_assoc. reflexivity.
Qed.

(** Stripping the fence of a fenced body leaves the trimmed body. *)
Lemma strip_code_fence_fenced (b : pystr) :
  _strip_code_fence (fenced b) = strip b.
Proof.
  unfold _strip_code_fence.
  assert (E : fenced b = 96%N :: 96%N :: 96%N :: 106%N :: 115%N :: 111%N
                          :: 110%N :: 10%N :: (b ++ nl) ++ fence).
  { unfold fenced. simpl. now rewrite <- app_assoc. }
  rewrite strip_fenced, E. remember ((b ++ nl) ++ fence) as t eqn:Et.
  assert (H1 : startswith (96 :: 96 :: 96 :: 106 :: 115 :: 111 :: 110 :: 10 :: t)%N
                 fence = true) by reflexivity.
  assert (H2 : find (96 :: 96 :: 96 :: 106 :: 115 :: 111 :: 110 :: 10 :: t)%N
                 newline = Some 7) by reflexivity.
  rewrite H1, H2. cbn [negb].
  change (slice_from _ (7 + 1)) with t.
  subst t. rewrite rfind_fence_last. unfold slice_to. rewrite firstn_exact.
  apply strip_snoc_drop. reflexivity.
Qed.

Lemma strip_code_fence_plain (text : pystr) :
  startswith (strip text) fence = false -> _strip_code_fence text = strip text.
Proof.
  intros H. unfold _strip_code_fence. destruct text as [|c r]; [reflexivity|].
  now rewrite H.
Qed.

(** C5, as the code has it: when the trimmed text does not start with the
    triple-backtick marker, [_strip_code_fence] returns the trimmed text
    (the input with its surrounding white space removed). *)
Theorem strip_code_fence_unfenced (text : pystr) :
  startswith (strip text) fence = false ->
  _strip_code_fence text = strip text.
Proof. apply strip_code_fence_plain. Qed.

Lemma strip_code_fence_unfenced_witness :
  startswith (strip (lit " [1] ")) fence = false /\
  _strip_code_fence (lit " [1] ") = strip (lit " [1] ").
Proof. split; [reflexivity | apply strip_code_fence_unfenced; reflexivity]. Defined.

(** C5 as stated fails: a text with surrounding white space whose trimmed
    form has no fence is not passed through unchanged. *)
Lemma strip_code_fence_changes_text :
  startswith (strip (lit " [1] ")) fence = false /\
  _strip_code_fence (lit " [1] ") = lit "[1]" /\
  lit "[1]" <> lit " [1] ".
Proof. repeat split. vm_compute. discriminate. Qed.

(** C4, as the code has it: for a body whose trimmed form does not itself
    start with the triple-backtick marker, normalising the fenced body
    gives what normalising the body gives. *)
Theorem normalize_fenced (b : pystr) :
  startswith (strip b) fence = false ->
  normalize (fenced b) = normalize b.
Proof.
  intros H. unfold normalize.
  now rewrite strip_code_fence_fenced, (strip_code_fence_plain b H).
Qed.

Lemma normalize_fenced_witness :
  startswith (strip (lit "[1, 2]")) fence = false /\
  normalize (fenced (lit "[1, 2]")) = normalize (lit "[1, 2]").
Proof. split; [reflexivity | apply normalize_fenced; reflexivity]. Defined.

(** C4 as stated fails for a body that starts with a fence of its own:
    the body alone loses its first line and parses, the fenced body keeps
    it and does not. *)
Lemma normalize_fenced_differs :
  normalize fence_then_one = Return (JInt 1) /\
  normalize (fenced fence_then_one) =
  Raise (ValueError (unparsable_msg ++ fence_then_one)).
Proof. split; reflexivity. Qed.

(** ** Recovery *)

Lemma first_open_none (text : pystr) :
  no_open text -> first_open text = None.
Proof.
  induction 1 as [|c r Hc _ IH]; [reflexivity|].
  simpl. now rewrite Hc, IH.
Qed.

Lemma first_open_some (text : pystr) (start : nat) :
  first_open_at text start -> first_open text = Some start.
Proof.
  revert start. induction text as [|c r IH]; intros start (Hlt & Hopen & Hmin).
  - simpl in Hlt. lia.
  - simpl. destruct start as [|start].
    + simpl in Hopen. now rewrite Hopen.
    + pose proof (Hmin 0 ltac:(lia)) as H0. simpl in H0. rewrite H0.
      rewrite (IH start); [reflexivity|].
      repeat split.
      * simpl in Hlt. lia.
      * exact Hopen.
      * intros k Hk. apply (Hmin (S k)). lia.
Qed.

(** One turn of the candidate loop. *)
Lemma try_candidates_cons (text : pystr) (start j : nat) (js : list nat) :
  try_candidates text start (j :: js) =
  match parse_candidate (slice text start j) with
  | Some v => Return v
  | None => try_candidates text start js
  end.
Proof.
  simpl. unfold parse_candidate, try_except.
  destruct (json_loads true (slice text start j)); [reflexivity|].
  now destruct (json_loads false (slice text start j)).
Qed.

Lemma try_candidates_returns (text : pystr) (start : nat) (js : list nat) :
  exists v, try_candidates text start js = Return v.
Proof.
  induction js as [|j js IH]; [now exists JNull|].
  rewrite try_candidates_cons.
  destruct (parse_candidate (slice text start j)) as [v|]; [now exists v | exact IH].
Qed.

(** The loop over [range(hi, start, -1)] returns the value of the longest
    candidate that parses, or [None] when none does. *)
Lemma try_candidates_range (text : pystr) (start hi : nat) :
  (exists j v,
      start < j <= hi /\
      parse_candidate (slice text start j) = Some v /\
      (forall j', j < j' <= hi -> parse_candidate (slice text start j') = None) /\
      try_candidates text start (range_down hi start) = Return v)
  \/
  ((forall j, start < j <= hi -> parse_candidate (slice text start j) = None) /\
   try_candidates text start (range_down hi start) = Return JNull).
Proof.
  induction hi as [|h IH].
  - right. split; [intros j Hj; lia | reflexivity].
  - cbn [range_down]. destruct (Nat.ltb_spec start (S h)) as [Hlt|Hge].
    + rewrite try_candidates_cons.
      destruct (parse_candidate (slice text start (S h))) as [v|] eqn:Hp.
      * left. exists (S h), v. repeat split; try lia; try assumption.
      * destruct IH as [(j & v & Hj & Hv & Hmax & Hr) | (Hall & Hr)].
        -- left. exists j, v. repeat split; try lia; try assumption.
           intros j' Hj'. destruct (Nat.eq_dec j' (S h)) as [->|Hne];
             [assumption | apply Hmax; lia].
        -- right. split; [|assumption].
           intros j Hj. destruct (Nat.eq_dec j (S h)) as [->|Hne];
             [assumption | apply Hall; lia].
    + right. split; [intros j Hj; lia | reflexivity].
Qed.

Lemma extract_json_spec_aux (text : pystr) :
  (no_open text -> _extract_json text = Return JNull) /\
  (forall start, first_open_at text start ->
     (exists j v,
         start < j <= length text /\
         parse_candidate (slice text start j) = Some v /\
         (forall j', j < j' <= length text ->
                     parse_candidate (slice text start j') = None) /\
         _extract_json text = Return v)
     \/
     ((forall j, start < j <= length text ->
                 parse_candidate (slice text start j) = None) /\
      _extract_json text = Return JNull)).
Proof.
  split.
  - intros H. unfold _extract_json. destruct text; [reflexivity|].
    now rewrite (first_open_none H).
  - intros start H. unfold _extract_json.
    destruct text as [|c r]; [destruct H as (Hlt & _); simpl in Hlt; lia|].
    rewrite (first_open_some H). apply try_candidates_range.
Qed.

(** C1: [_extract_json] returns [None] on a text with no opening bracket
    or brace; otherwise, with [start] the index of the first one, it tries
    the candidates [text[start:j]] for [j] from [len(text)] down to
    [start + 1], each strictly and then leniently, and returns the value of
    the first (longest) candidate that parses, [None] when none does. *)
Theorem extract_json_spec (text : pystr) :
  (no_open text -> _extract_json text = Return JNull) /\
  (forall start, first_open_at text start ->
     (exists j v,
         start < j <= length text /\
         parse_candidate (slice text start j) = Some v /\
         (forall j', j < j' <= length text ->
                     parse_candidate (slice text start j') = None) /\
         _extract_json text = Return v)
     \/
     ((forall j, start < j <= length text ->
                 parse_candidate (slice text start j) = None) /\
      _extract_json text = Return JNull)).
Proof. apply extract_json_spec_aux. Qed.

Lemma extract_json_spec_witness :
  first_open_at (lit "ab [1,2] cd") 3 /\
  _extract_json (lit "ab [1,2] cd") = Return (JArray [JInt 1; JInt 2]).
Proof.
  assert (H : first_open_at (lit "ab [1,2] cd") 3).
  { repeat split; [vm_compute; lia | intros k Hk].
    destruct k as [|[|[|k]]]; try reflexivity; lia. }
  split; [exact H|].
  destruct (proj2 (extract_json_spec (lit "ab [1,2] cd")) 3 H)
    as [(j & v & _ & _ & _ & Hr) | (_ & Hr)]; rewrite Hr; vm_compute in Hr;
    symmetry; exact Hr.
Defined.

(** C10: [_extract_json] returns on every text, a parsed value or [None];
    no exception of a candidate's strict or lenient parse leaves it. *)
Theorem extract_json_total (text : pystr) :
  exists v, _extract_json text = Return v.
Proof.
  unfold _extract_json. destruct text as [|c r]; [now exists JNull|].
  destruct (first_open (c :: r)) as [start|]; [|now exists JNull].
  apply try_candidates_returns.
Qed.

(** ** Texts without an opening bracket or brace *)

Section ForallPreserved.

Variable P : char -> Prop.

Lemma Forall_lstrip (s : pystr) : Forall P s -> Forall P (lstrip s).
Proof.
  induction 1 as [|c r Hc Hr IH]; simpl; [constructor|].
  destruct (isspace c); [exact IH | now constructor].
Qed.

Lemma Forall_rstrip (s : pystr) : Forall P s -> Forall P (rstrip s).
Proof.
  intros H. unfold rstrip. apply Forall_rev, Forall_lstrip, Forall_rev, H.
Qed.





End ForallPreserved.





(** ** The prompt *)

Lemma strs_of_strings (names : list pystr) :
  strs_of (map JString names) = Some names.
Proof.
  induction names as [|n r IH]; [reflexivity|].
  simpl. now rewrite IH.
Qed.

Lemma join_values_strings (sep : pystr) (names : list pystr) :
  join_values sep (map JString names) = Return (join sep names).
Proof. unfold join_values. now rewrite strs_of_strings. Qed.

Lemma prompt_holidays_line (industry date text : pystr) :
  occurs_in (holidays_line text)
    (prompt_head ++ date ++ prompt_industry ++ industry
     ++ prompt_holidays ++ text ++ prompt_tail).
Proof.
  exists (prompt_head ++ date ++ prompt_industry ++ industry ++ [46%N; 10%N]).
  exists (skipn 2 prompt_tail).
  unfold holidays_line. rewrite <- !app_assoc. reflexivity.
Qed.

(** C8: with no holidays the prompt names them by the literal placeholder
    [brak] ("none"), not by the empty text an empty join would give; with
    holidays it names them joined by a comma and a space. *)
Theorem build_prompt_holidays (industry date : pystr) :
  (exists p, build_prompt industry date [] = Return p /\
             occurs_in (holidays_line brak) p /\
             build_prompt industry date [] <>
             Return (prompt_head ++ date ++ prompt_industry ++ industry
                     ++ prompt_holidays ++ join comma_space [] ++ prompt_tail)) /\
  (forall name names,
      exists p, build_prompt industry date (map JString (name :: names)) = Return p /\
                occurs_in (holidays_line (join comma_space (name :: names))) p).
Proof.
  split.
  - eexists. split; [reflexivity|]. split; [apply prompt_holidays_line|].
    intros H.
    pose proof (f_equal (fun o => match o with
                                  | Return p => length p
                                  | Raise _ => 0
                                  end) H) as L.
    unfold build_prompt in L. cbn [bind join] in L.
    rewrite !length_app in L. change (length brak) with 4 in L.
    cbn [length] in L. lia.
  - intros name names. eexists. split; [|apply prompt_holidays_line].
    unfold build_prompt.
    change (match map JString (name :: names) with
            | [] => Return brak
            | _ :: _ => join_values comma_space (map JString (name :: names))
            end) with (join_values comma_space (map JString (name :: names))).
    rewrite join_values_strings. reflexivity.
Qed.

(** ** Holidays *)

(** The request raises when the service does. *)
Lemma holidays_request_service_raises
      (fnz : pystr -> bool) (svc : pystr -> outcome json)
      (date cc : pystr) (e : exn) :
  svc (holidays_url ++ split_head date 45%N ++ [47%N] ++ cc) = Raise e ->
  holidays_request fnz svc date cc = Raise e.
Proof. intros H. unfold holidays_request. now rewrite H. Qed.

(** C9: when the holiday request raises, whatever the exception (the
    service failing, or the comprehension over a malformed body),
    [get_holidays] returns the empty list and raises nothing. *)
Theorem get_holidays_swallows
        (fnz : pystr -> bool) (svc : pystr -> outcome json)
        (date cc : pystr) (e : exn) :
  holidays_request fnz svc date cc = Raise e ->
  get_holidays fnz svc date cc = Return [].
Proof. intros H. unfold get_holidays. now rewrite H. Qed.

Lemma get_holidays_swallows_witness :
  holidays_request no_floats service_down (lit "2024-01-01") PL = Raise RequestError /\
  holidays_request no_floats service_number (lit "2024-01-01") PL = Raise TypeError /\
  get_holidays no_floats service_down (lit "2024-01-01") PL = Return [] /\
  get_holidays no_floats service_number (lit "2024-01-01") PL = Return [].
Proof.
  split; [reflexivity|]. split; [reflexivity|]. split.
  - exact (get_holidays_swallows no_floats service_down (lit "2024-01-01") PL
             (e := RequestError) eq_refl).
  - exact (get_holidays_swallows no_floats service_number (lit "2024-01-01") PL
             (e := TypeError) eq_refl).
Defined.

(** X9: [get_holidays] never raises. *)
Lemma get_holidays_returns
      (fnz : pystr -> bool) (svc : pystr -> outcome json) (date cc : pystr) :
  exists names, get_holidays fnz svc date cc = Return names.
Proof.
  unfold get_holidays.
  destruct (holidays_request fnz svc date cc) as [names|e];
    [now exists names | now exists []].
Qed.

(** ** Idea generation *)

Lemma mock_ideas_returns (industry date : pystr) (holidays : list json) (p : pystr) :
  build_prompt industry date holidays = Return p ->
  exists v, mock_ideas industry date holidays = Return v /\ two_ideas v.
Proof.
  unfold build_prompt, mock_ideas. intros H.
  destruct holidays as [|h hs].
  - cbn [bind]. eexists. split; [reflexivity|]. do 4 eexists. reflexivity.
  - destruct (join_values comma_space (h :: hs)) as [text|e]; [|discriminate H].
    cbn [bind]. eexists. split; [reflexivity|]. do 4 eexists. reflexivity.
Qed.

(** C6: with the key configured, when the model call or the parsing of
    its answer raises, [generate_ideas] raises (its own [RuntimeError]) if
    the mock fallback is off, and returns the canned list if it is on. *)
Theorem generate_ideas_failure
        (fnz : pystr -> bool) (svc : pystr -> outcome json)
        (api : pystr -> outcome (list pystr)) (cfg : config)
        (industry date cc : pystr) (holidays : list json) (prompt : pystr)
        (e : exn) :
  ANTHROPIC_API_KEY cfg <> [] ->
  get_holidays fnz svc date cc = Return holidays ->
  build_prompt industry date holidays = Return prompt ->
  bind (_call_anthropic_messages api cfg prompt) normalize = Raise e ->
  (ALLOW_MOCKS cfg = false ->
   generate_ideas fnz svc api cfg industry date cc = Raise (RuntimeError failed_msg)) /\
  (ALLOW_MOCKS cfg = true ->
   exists v, generate_ideas fnz svc api cfg industry date cc = Return v /\
             two_ideas v).
Proof.
  intros Hkey Hh Hp Hfail. unfold generate_ideas.
  rewrite Hh. cbn [bind]. rewrite Hp. cbn [bind].
  destruct (ANTHROPIC_API_KEY cfg) as [|k ks] eqn:Ek; [congruence|].
  rewrite Hfail. split; intros Hm; rewrite Hm; [reflexivity|].
  apply (mock_ideas_returns _ _ _ Hp).
Qed.

Lemma generate_ideas_failure_witness :
  generate_ideas no_floats service_down api_prose cfg_live
    (lit "Bakery") (lit "2024-01-01") PL = Raise (RuntimeError failed_msg) /\
  generate_ideas no_floats service_down api_down cfg_live
    (lit "Bakery") (lit "2024-01-01") PL = Raise (RuntimeError failed_msg) /\
  exists v, generate_ideas no_floats service_down api_prose cfg_mock
              (lit "Bakery") (lit "2024-01-01") PL = Return v /\ two_ideas v.
Proof.
  split; [|split].
  - refine (proj1 (@generate_ideas_failure no_floats service_down api_prose
                     cfg_live (lit "Bakery") (lit "2024-01-01") PL [] _ _
                     _ eq_refl eq_refl eq_refl) eq_refl).
    discriminate.
  - refine (proj1 (@generate_ideas_failure no_floats service_down api_down
                     cfg_live (lit "Bakery") (lit "2024-01-01") PL [] _ _
                     _ eq_refl eq_refl eq_refl) eq_refl).
    discriminate.
  - refine (proj2 (@generate_ideas_failure no_floats service_down api_prose
                     cfg_mock (lit "Bakery") (lit "2024-01-01") PL [] _ _
                     _ eq_refl eq_refl eq_refl) eq_refl).
    discriminate.
Defined.

(** ** The HTTP handlers *)

Section HandlerProperties.

Variable fnz : pystr -> bool.
Variable gen : json -> json -> json -> outcome json.
Variable str_of : exn -> pystr.

Lemma missing_not_truthy (v : json) : missing_or_empty v -> truthy fnz v = false.
Proof. now intros [-> | ->]. Qed.

(** X16: GET: a missing or empty [industry] or [date] gives status 400 with an
    error object, and [generate_ideas] is not called. *)
Lemma ideas_get_missing (args : list (pystr * pystr)) :
  missing_or_empty (args_get_or args k_industry JNull) \/
  missing_or_empty (args_get_or args k_date JNull) ->
  ideas_get fnz gen str_of args =
  (Return (jsonify_status (error_object get_required_msg) 400), []).
Proof.
  intros H. unfold ideas_get.
  destruct H as [H | H]; rewrite (missing_not_truthy H); cbn [negb orb];
    [reflexivity | now rewrite orb_true_r].
Qed.

(** X17: POST with a JSON object as body: a missing, null or empty
    [industry] or [date] gives status 400 with an error object, and
    [generate_ideas] is not called. *)
Lemma ideas_post_missing (d : list (pystr * json)) :
  missing_or_empty (dict_get_or d k_industry JNull) \/
  missing_or_empty (dict_get_or d k_date JNull) ->
  ideas_post fnz gen str_of {| is_json := true; get_json := Return (JObject d) |} =
  (Return (jsonify_status (error_object post_required_msg) 400), []).
Proof.
  intros H. unfold ideas_post. cbn [is_json get_json negb payload_get_or].
  destruct H as [H | H]; rewrite (missing_not_truthy H); cbn [negb orb];
    [reflexivity | now rewrite orb_true_r].
Qed.

(** POST without a JSON content type: status 400, no call. *)
Lemma ideas_post_not_json (body : outcome json) :
  ideas_post fnz gen str_of {| is_json := false; get_json := body |} =
  (Return (jsonify_status (error_object json_expected_msg) 400), []).
Proof. reflexivity. Qed.

(** C7 fails on POST when the JSON body is not an object: [industry] and
    [date] are missing from the body [[]], yet the handler raises
    [AttributeError] at [payload.get] instead of returning status 400.
    [generate_ideas] is not called. *)
Theorem ideas_post_list_body_raises :
  ideas_post fnz gen str_of post_empty_list = (Raise AttributeError, []).
Proof. reflexivity. Qed.

End HandlerProperties.

(** ** The decoder *)

Import Decoder.






Lemma skip_ws_length (s : pystr) : length (skip_ws s) <= length s.
Proof.
  induction s as [|c r IH]; simpl; [lia|].
  destruct (is_ws c); simpl; lia.
Qed.





(** A text splits into what [rstrip] keeps and trailing white space. *)
Lemma lstrip_split (s : pystr) :
  exists t, s = t ++ lstrip s /\ Forall (fun c => isspace c = true) t.
Proof.
  induction s as [|c r (t & E & Ht)]; simpl.
  - now exists [].
  - destruct (isspace c) eqn:Ec.
    + exists (c :: t). split; [simpl; now rewrite <- E | now constructor].
    + now exists [].
Qed.



(** Appending white space [t] to a text changes no scanner's view of the
    text: each finds what it found, with [t] after it. *)


Lemma startswith_length (w s : pystr) :
  startswith s w = true -> length w <= length s.
Proof.
  revert s. induction w as [|x w IH]; intros s H; simpl; [lia|].
  destruct s as [|c s]; simpl in H; [discriminate H|].
  apply andb_true_iff in H. destruct H as [_ H]. apply IH in H. simpl. lia.
Qed.














(** Every scanner consumes text: what follows its result is shorter than
    what it was given. *)

Lemma take_digits_length (s : pystr) : length (snd (take_digits s)) <= length s.
Proof.
  induction s as [|c s IH]; simpl; [lia|].
  destruct (is_digit c); simpl; [|lia].
  destruct (take_digits s); simpl in *; lia.
Qed.

Lemma match_digits_length (s ds r : pystr) :
  match_digits s = Some (ds, r) -> length r < length s.
Proof.
  unfold match_digits. destruct s as [|c s]; [discriminate|].
  destruct (c =? 48)%N.
  - intros H. injection H as _ <-. simpl. lia.
  - destruct (is_digit c); [|discriminate].
    pose proof (take_digits_length s) as L.
    destruct (take_digits s) as [ds' r']. intros H. injection H as _ <-.
    simpl in *. lia.
Qed.

Lemma match_integer_length (s ds r : pystr) (neg : bool) :
  match_integer s = Some (neg, ds, r) -> length r < length s.
Proof.
  unfold match_integer. destruct s as [|c s]; cbv beta iota.
  - simpl. discriminate.
  - destruct (c =? 45)%N.
    + destruct (match_digits s) as [[ds' r']|] eqn:E; [|discriminate].
      intros H. injection H as _ _ <-. apply match_digits_length in E. simpl. lia.
    + destruct (match_digits (c :: s)) as [[ds' r']|] eqn:E; [|discriminate].
      intros H. injection H as _ _ <-. now apply match_digits_length in E.
Qed.

Lemma match_frac_length (s : pystr) : length (snd (match_frac s)) <= length s.
Proof.
  unfold match_frac. destruct s as [|c s]; [simpl; lia|].
  destruct (c =? 46)%N; [|simpl; lia].
  pose proof (take_digits_length s) as L.
  destruct (take_digits s) as [[|d ds] r]; simpl in *; lia.
Qed.

Lemma match_exp_length (s : pystr) : length (snd (match_exp s)) <= length s.
Proof.
  unfold match_exp. destruct s as [|c s]; [simpl; lia|].
  destruct ((c =? 101) || (c =? 69))%N; [|simpl; lia].
  destruct s as [|g s]; cbv beta iota; [simpl; lia|].
  destruct ((g =? 45) || (g =? 43))%N.
  - pose proof (take_digits_length s) as L.
    destruct (take_digits s) as [[|d ds] r]; simpl in *; lia.
  - pose proof (take_digits_length (g :: s)) as L.
    destruct (take_digits (g :: s)) as [[|d ds] r]; simpl in *; lia.
Qed.

Lemma match_number_length (s r : pystr) (v : json) :
  match_number s = Some (v, r) -> length r < length s.
Proof.
  unfold match_number.
  destruct (match_integer s) as [[[neg ds] r0]|] eqn:E; [|discriminate].
  apply match_integer_length in E.
  pose proof (match_frac_length r0) as L1.
  destruct (match_frac r0) as [frac r1].
  pose proof (match_exp_length r1) as L2.
  destruct (match_exp r1) as [exp r2]. simpl in L1, L2.
  destruct frac, exp; intros H; injection H as _ <-; lia.
Qed.

Lemma keyword_length (w : pystr) (v v' : json) (s r : pystr) :
  w <> [] -> keyword w v s = Some (v', r) -> length r < length s.
Proof.
  intros Hw. unfold keyword. destruct (startswith s w) eqn:E; [|discriminate].
  intros H. injection H as _ <-. apply startswith_length in E.
  rewrite length_skipn. destruct w; [congruence|]. simpl in *. lia.
Qed.

Lemma scan_atom_length (s r : pystr) (v : json) :
  scan_atom s = Some (v, r) -> length r < length s.
Proof.
  unfold scan_atom.
  repeat match goal with
         | |- context [keyword ?w ?x s] =>
             let E := fresh "E" in
             destruct (keyword w x s) as [[? ?]|] eqn:E;
             [ intros H; injection H as <- <-;
               apply keyword_length in E; [exact E | discriminate] | ]
         | |- context [match_number s] =>
             let E := fresh "E" in
             destruct (match_number s) as [[? ?]|] eqn:E;
             [ intros H; injection H as <- <-;
               now apply match_number_length in E | ]
         end.
  discriminate.
Qed.

Lemma hex4_length (s r : pystr) (u : N) :
  hex4 s = Some (u, r) -> length s = 4 + length r.
Proof.
  unfold hex4. destruct s as [|a [|b [|c [|d s]]]]; try discriminate.
  destruct (hexval a), (hexval b), (hexval c), (hexval d); try discriminate.
  intros H. injection H as _ <-. reflexivity.
Qed.

Lemma string_item_length (strict : bool) (s : pystr) :
  match string_item strict s with
  | SEnd r | SChar _ r => length r < length s
  | SErr => True
  end.
Proof.
  unfold string_item. destruct s as [|c r]; [exact I|].
  destruct (c =? 34)%N; [simpl; lia|].
  destruct (c =? 92)%N; [|destruct (c <? 32)%N, strict; simpl; try exact I; lia].
  destruct r as [|esc r']; [exact I|].
  destruct (esc =? 117)%N; [|destruct (backslash esc); simpl; try exact I; lia].
  destruct (hex4 r') as [[uni r1]|] eqn:E1; [|exact I].
  apply hex4_length in E1.
  destruct ((55296 <=? uni) && (uni <=? 56319))%N; [|simpl; lia].
  destruct r1 as [|b [|u r2]]; try (simpl in *; lia).
  destruct ((b =? 92) && (u =? 117))%N; [|simpl in *; lia].
  destruct (hex4 r2) as [[uni2 r3]|] eqn:E2; [|exact I].
  apply hex4_length in E2.
  destruct ((56320 <=? uni2) && (uni2 <=? 57343))%N; simpl in *; lia.
Qed.

(** Case analysis on the white space skipped before a delimiter. *)
Ltac skip_cases x d r E :=
  let L := fresh "L" in
  pose proof (skip_ws_length x) as L;
  destruct (skip_ws x) as [|d r] eqn:E; [try discriminate|]; simpl length in *.

Lemma scan_shorter (strict : bool) (n : nat) :
  forall m s v r, scan strict n m s = POk v r -> length r < length s.
Proof.
  induction n as [|n IH]; [discriminate|].
  intros m s v r. cbn [scan]. unfold scan_body. destruct m as [|acc|values|pairs].
  - destruct s as [|c s0]; [discriminate|]. simpl length.
    destruct (c =? 34)%N; [intros H; apply IH in H; lia|].
    destruct (c =? 123)%N.
    { skip_cases s0 d r2 E.
      destruct (d =? 125)%N; [intros H; injection H as _ <-; lia|].
      destruct (d =? 34)%N; [intros H; apply IH in H; lia | discriminate]. }
    destruct (c =? 91)%N.
    { skip_cases s0 d r2 E.
      destruct (d =? 93)%N; [intros H; injection H as _ <-; lia|].
      intros H; apply IH in H; simpl in H; lia. }
    destruct (scan_atom (c :: s0)) as [[v' r']|] eqn:E; [|discriminate].
    intros H; injection H as _ <-. apply scan_atom_length in E. simpl in E. lia.
  - pose proof (string_item_length strict s) as L.
    destruct (string_item strict s) as [r0|c r0|]; [| |discriminate].
    + intros H; injection H as _ <-. exact L.
    + intros H; apply IH in H; lia.
  - destruct (scan strict n MValue s) as [v1 r1| |] eqn:E1; try discriminate.
    apply IH in E1. skip_cases r1 d r2 E.
    destruct (d =? 93)%N; [intros H; injection H as _ <-; lia|].
    destruct (d =? 44)%N; [|discriminate].
    intros H; apply IH in H. pose proof (skip_ws_length r2) as L'. lia.
  - destruct (scan strict n (MString []) s) as [v1 r1| |] eqn:E1; try discriminate.
    apply IH in E1. destruct v1; try discriminate.
    skip_cases r1 d r2 E.
    destruct (d =? 58)%N; [|discriminate].
    destruct (scan strict n MValue (skip_ws r2)) as [v2 r4| |] eqn:E2; try discriminate.
    apply IH in E2. pose proof (skip_ws_length r2) as L2.
    skip_cases r4 e r6 E'.
    destruct (e =? 125)%N; [intros H; injection H as _ <-; lia|].
    destruct (e =? 44)%N; [|discriminate].
    skip_cases r6 q r8 E''.
    destruct (q =? 34)%N; [|discriminate].
    intros H; apply IH in H; lia.
Qed.




(** The scanner never runs out of the fuel [fuel_needed] allows. *)
Lemma scan_fuel (strict : bool) (n : nat) :
  forall m s, fuel_needed m s < n -> scan strict n m s <> PFuel.
Proof.
  induction n as [|n IH]; [intros m s H; lia|].
  intros m s. cbn [scan]. unfold scan_body, fuel_needed.
  destruct m as [|acc|values|pairs]; intros Hn.
  - destruct s as [|c s0]; [discriminate|]. simpl length in Hn.
    destruct (c =? 34)%N; [apply IH; unfold fuel_needed; lia|].
    destruct (c =? 123)%N.
    { skip_cases s0 d r2 E.
      destruct (d =? 125)%N; [discriminate|].
      destruct (d =? 34)%N; [apply IH; unfold fuel_needed; lia | discriminate]. }
    destruct (c =? 91)%N.
    { skip_cases s0 d r2 E.
      destruct (d =? 93)%N; [discriminate|].
      apply IH; unfold fuel_needed; simpl length; lia. }
    destruct (scan_atom (c :: s0)) as [[v' r']|]; discriminate.
  - pose proof (string_item_length strict s) as L.
    destruct (string_item strict s) as [r0|c r0|]; try discriminate.
    apply IH; unfold fuel_needed; lia.
  - assert (F1 : scan strict n MValue s <> PFuel)
      by (apply IH; unfold fuel_needed; lia).
    destruct (scan strict n MValue s) as [v1 r1| |] eqn:E1; [|discriminate|congruence].
    apply scan_shorter in E1. skip_cases r1 d r2 E.
    destruct (d =? 93)%N; [discriminate|].
    destruct (d =? 44)%N; [|discriminate].
    pose proof (skip_ws_length r2) as L'.
    apply IH; unfold fuel_needed; lia.
  - assert (F1 : scan strict n (MString []) s <> PFuel)
      by (apply IH; unfold fuel_needed; lia).
    destruct (scan strict n (MString []) s) as [v1 r1| |] eqn:E1;
      [|discriminate|congruence].
    apply scan_shorter in E1. destruct v1; try discriminate.
    skip_cases r1 d r2 E.
    destruct (d =? 58)%N; [|discriminate].
    pose proof (skip_ws_length r2) as L2.
    assert (F2 : scan strict n MValue (skip_ws r2) <> PFuel)
      by (apply IH; unfold fuel_needed; lia).
    destruct (scan strict n MValue (skip_ws r2)) as [v2 r4| |] eqn:E2;
      [|discriminate|congruence].
    apply scan_shorter in E2.
    skip_cases r4 e r6 E'.
    destruct (e =? 125)%N; [discriminate|].
    destruct (e =? 44)%N; [|discriminate].
    skip_cases r6 q r8 E''.
    destruct (q =? 34)%N; [|discriminate].
    apply IH; unfold fuel_needed; lia.
Qed.











(** ** Round trip *)




(** The decoder never stops for lack of fuel: [decode] fails only on a
    decode error. *)
Lemma decode_fuel (strict : bool) (s : pystr) :
  scan strict (enough s) MValue (skip_ws s) <> PFuel.
Proof.
  apply scan_fuel. pose proof (skip_ws_length s). unfold fuel_needed, enough. lia.
Qed.

(** ** Further properties of normalisation *)






(** ** Further properties of fence stripping *)

Lemma lstrip_length (s : pystr) : length (lstrip s) <= length s.
Proof.
  induction s as [|c s IH]; simpl; [lia|].
  destruct (isspace c); simpl; lia.
Qed.

Lemma lstrip_idem (s : pystr) : lstrip (lstrip s) = lstrip s.
Proof.
  induction s as [|c s IH]; simpl; [reflexivity|].
  destruct (isspace c) eqn:E; [exact IH|]. simpl. now rewrite E.
Qed.

Lemma lstrip_fixed_app (x y : pystr) :
  lstrip (x ++ y) = x ++ y -> lstrip x = x.
Proof.
  destruct x as [|c x]; [reflexivity|]. simpl.
  destruct (isspace c); [|reflexivity].
  intros H. pose proof (lstrip_length (x ++ y)) as L.
  rewrite H in L. simpl in L. lia.
Qed.

Lemma rstrip_idem (s : pystr) : rstrip (rstrip s) = rstrip s.
Proof. unfold rstrip. now rewrite rev_involutive, lstrip_idem. Qed.

Lemma strip_idem (s : pystr) : strip (strip s) = strip s.
Proof.
  unfold strip.
  assert (E : rstrip (lstrip (rstrip s)) = lstrip (rstrip s)).
  { destruct (lstrip_split (rstrip s)) as (t & E & _).
    pose proof (rstrip_idem s) as R. unfold rstrip at 1 in R.
    apply (f_equal (@rev char)) in R. rewrite rev_involutive in R.
    rewrite E in R at 1 2. rewrite rev_app_distr in R.
    apply lstrip_fixed_app in R.
    unfold rstrip at 1. rewrite R. apply rev_involutive. }
  rewrite E. apply lstrip_idem.
Qed.

(** X3: What [_strip_code_fence] returns has no white space around it. *)
Theorem strip_code_fence_stripped (text : pystr) :
  strip (_strip_code_fence text) = _strip_code_fence text.
Proof.
  unfold _strip_code_fence. destruct text as [|c r]; [reflexivity|].
  destruct (negb (startswith (strip (c :: r)) fence)); [apply strip_idem|].
  destruct (find (strip (c :: r)) newline); apply strip_idem.
Qed.

Lemma lstrip_app_solid (u : pystr) (c : char) (w : pystr) :
  isspace c = false -> lstrip (u ++ c :: w) = lstrip u ++ c :: w.
Proof.
  intros H. induction u as [|d u IH]; simpl; [now rewrite H|].
  now destruct (isspace d).
Qed.

Lemma rstrip_app_keep (x : pystr) (c : char) (junk : pystr) :
  isspace c = false ->
  rstrip ((x ++ [c]) ++ junk) = (x ++ [c]) ++ rstrip junk.
Proof.
  intros H. unfold rstrip. rewrite !rev_app_distr. simpl rev at 2. simpl app at 2.
  rewrite lstrip_app_solid by exact H. rewrite rev_app_distr. simpl.
  now rewrite rev_involutive.
Qed.

Lemma startswith_backtick_plain (j w : pystr) :
  no_backtick j -> startswith j (96%N :: w) = false.
Proof.
  intros H. destruct H as [|c j Hc Hj]; [reflexivity|]. cbn [startswith].
  destruct (N.eqb_spec 96 c) as [E|_]; [now contradiction Hc | reflexivity].
Qed.

Lemma rfind_plain (j : pystr) : no_backtick j -> rfind j fence = None.
Proof.
  induction 1 as [|c j Hc Hj IH]; [reflexivity|].
  cbn [rfind]. rewrite IH. unfold fence.
  now rewrite startswith_backtick_plain by (now constructor).
Qed.

(** The last fence of a text that ends with a fence followed by text
    without backticks is that fence. *)
Lemma rfind_fence_then_plain (x j : pystr) :
  no_backtick j -> rfind (x ++ fence ++ j) fence = Some (length x).
Proof.
  intros Hj. induction x as [|c x IH].
  - assert (S1 : startswith (96%N :: j) fence = false).
    { unfold fence. cbn [startswith].
      destruct Hj as [|c j Hc Hj]; [reflexivity|].
      destruct (N.eqb_spec 96 c) as [E|_]; [now contradiction Hc | reflexivity]. }
    assert (S2 : startswith (96%N :: 96%N :: j) fence = false).
    { unfold fence. cbn [startswith].
      destruct Hj as [|c j Hc Hj]; [reflexivity|].
      destruct (N.eqb_spec 96 c) as [E|_]; [now contradiction Hc | reflexivity]. }
    assert (S3 : startswith (96%N :: 96%N :: 96%N :: j) fence = true) by reflexivity.
    change ([] ++ fence ++ j) with (96%N :: 96%N :: 96%N :: j).
    cbn [rfind]. rewrite rfind_plain by exact Hj. now rewrite S1, S2, S3.
  - change ((c :: x) ++ fence ++ j) with (c :: (x ++ fence ++ j)).
    cbn [rfind]. now rewrite IH.
Qed.

(** X4: The fence is recognised with commentary after it: for a fenced body
    followed by text that holds no backtick, [_strip_code_fence] returns
    the trimmed body. *)
Theorem strip_code_fence_trailing (b junk : pystr) :
  no_backtick junk ->
  _strip_code_fence (fenced b ++ junk) = strip b.
Proof.
  intros Hj.
  assert (Hj' : no_backtick (rstrip junk)) by now apply Forall_rstrip.
  assert (Er : strip (fenced b ++ junk) = fenced b ++ rstrip junk).
  { unfold strip.
    replace (fenced b)
      with ((fence_json ++ nl ++ b ++ nl ++ [96; 96]%N) ++ [96%N])
      by (unfold fenced, fence; rewrite <- !app_assoc; reflexivity).
    rewrite rstrip_app_keep by reflexivity.
    rewrite <- !app_assoc. reflexivity. }
  assert (E : fenced b ++ rstrip junk =
              96%N :: 96%N :: 96%N :: 106%N :: 115%N :: 111%N
                   :: 110%N :: 10%N :: (b ++ nl) ++ fence ++ rstrip junk).
  { unfold fenced. simpl. now rewrite <- !app_assoc. }
  unfold _strip_code_fence.
  destruct (fenced b ++ junk) as [|c0 r0] eqn:E0;
    [now destruct b; discriminate E0|].
  rewrite Er, E. remember ((b ++ nl) ++ fence ++ rstrip junk) as t eqn:Et.
  assert (H1 : startswith (96 :: 96 :: 96 :: 106 :: 115 :: 111 :: 110 :: 10 :: t)%N
                 fence = true) by reflexivity.
  assert (H2 : find (96 :: 96 :: 96 :: 106 :: 115 :: 111 :: 110 :: 10 :: t)%N
                 newline = Some 7) by reflexivity.
  rewrite H1, H2. cbn [negb].
  change (slice_from _ (7 + 1)) with t.
  subst t. rewrite rfind_fence_then_plain by exact Hj'.
  unfold slice_to. rewrite firstn_exact.
  apply strip_snoc_drop. reflexivity.
Qed.

Lemma strip_code_fence_trailing_witness :
  no_backtick (lit " Hope this helps!") /\
  _strip_code_fence (fenced (lit "[1]") ++ lit " Hope this helps!") = lit "[1]".
Proof.
  assert (H : no_backtick (lit " Hope this helps!"))
    by (repeat constructor; discriminate).
  split; [exact H|].
  exact (strip_code_fence_trailing (lit "[1]") H).
Defined.

(** ** Further properties of the service *)

Lemma matching_names_records (fnz : pystr -> bool) (date : pystr)
      (records : list (list (pystr * json))) :
  matching_names fnz date (map JObject records) = Return (names_on fnz date records).
Proof.
  unfold names_on. induction records as [|d rs IH]; [reflexivity|].
  cbn [map matching_names get bind filter].
  destruct (eq_str (dict_get d k_date) date); [|exact IH].
  cbn [map]. unfold record_name, py_or.
  destruct (truthy fnz (dict_get d k_localName)); cbn [bind get]; now rewrite IH.
Qed.

(** X8: When the holiday service answers with a list of objects,
    [get_holidays] returns, in order, the [localName] (or, when that is
    missing or empty, the [name]) of exactly the records whose [date] is
    the requested date. *)
Theorem get_holidays_records
        (fnz : pystr -> bool) (svc : pystr -> outcome json) (date cc : pystr)
        (records : list (list (pystr * json))) :
  svc (holidays_url_for date cc) = Return (JArray (map JObject records)) ->
  get_holidays fnz svc date cc = Return (names_on fnz date records).
Proof.
  intros H. unfold get_holidays, holidays_request.
  unfold holidays_url_for in H. rewrite H. cbn [bind iterate].
  now rewrite matching_names_records.
Qed.

Lemma get_holidays_records_witness :
  get_holidays no_floats service_two (lit "2024-05-01") PL =
  Return [JString (lit "Labour Day")] /\
  get_holidays no_floats service_two (lit "2024-01-01") PL =
  Return [JString (lit "Nowy Rok")].
Proof.
  split.
  - exact (@get_holidays_records no_floats service_two (lit "2024-05-01") PL
             [new_year; labour_day] eq_refl).
  - exact (@get_holidays_records no_floats service_two (lit "2024-01-01") PL
             [new_year; labour_day] eq_refl).
Defined.

Lemma strs_of_some (hs : list json) :
  Forall (fun h => is_str h = true) hs -> exists ss, strs_of hs = Some ss.
Proof.
  induction 1 as [|h hs Hh _ (ss & IH)]; [now exists []|].
  destruct h; try discriminate Hh. simpl. rewrite IH. now eexists.
Qed.

Lemma strs_of_none (hs : list json) :
  Exists (fun h => is_str h = false) hs -> strs_of hs = None.
Proof.
  induction 1 as [h hs Hh | h hs _ IH].
  - now destruct h.
  - destruct h; try reflexivity. simpl. now rewrite IH.
Qed.

(** X10: [build_prompt] raises [TypeError] exactly when some holiday is not a
    [str] (a record with no name gives [None]); otherwise it returns. *)
Theorem build_prompt_type_error (industry date : pystr) (holidays : list json) :
  (Exists (fun h => is_str h = false) holidays ->
   build_prompt industry date holidays = Raise TypeError) /\
  (Forall (fun h => is_str h = true) holidays ->
   exists p, build_prompt industry date holidays = Return p).
Proof.
  unfold build_prompt, join_values. split; intros H.
  - rewrite (strs_of_none H). destruct holidays; [inversion H | reflexivity].
  - destruct (strs_of_some H) as (ss & E). rewrite E.
    destruct holidays; eexists; reflexivity.
Qed.

(** X11: A holiday of the date without a name makes [generate_ideas] raise
    [TypeError], whatever the key, the model's answer and the mock
    setting: the prompt is built outside the [try]. *)
Theorem generate_ideas_nameless_holiday
        (fnz : pystr -> bool) (svc : pystr -> outcome json)
        (api : pystr -> outcome (list pystr)) (cfg : config)
        (industry date cc : pystr) (holidays : list json) :
  get_holidays fnz svc date cc = Return holidays ->
  Exists (fun h => is_str h = false) holidays ->
  generate_ideas fnz svc api cfg industry date cc = Raise TypeError.
Proof.
  intros Hh Hx. unfold generate_ideas. rewrite Hh. cbn [bind].
  unfold build_prompt, join_values. rewrite (strs_of_none Hx).
  destruct holidays; [inversion Hx | reflexivity].
Qed.

Lemma generate_ideas_nameless_holiday_witness :
  get_holidays no_floats service_nameless (lit "2024-01-01") PL = Return [JNull] /\
  generate_ideas no_floats service_nameless api_fenced cfg_mock
    (lit "Bakery") (lit "2024-01-01") PL = Raise TypeError.
Proof.
  split; [reflexivity|].
  refine (@generate_ideas_nameless_holiday no_floats service_nameless api_fenced
            cfg_mock (lit "Bakery") (lit "2024-01-01") PL [JNull] eq_refl _).
  constructor. reflexivity.
Defined.

(** X12: Without a key the model is not consulted: the result is the same for
    every Messages API, and a returned value is the canned list, returned
    only with the mock fallback on. *)
Theorem generate_ideas_no_key
        (fnz : pystr -> bool) (svc : pystr -> outcome json)
        (api api' : pystr -> outcome (list pystr)) (cfg : config)
        (industry date cc : pystr) :
  ANTHROPIC_API_KEY cfg = [] ->
  generate_ideas fnz svc api cfg industry date cc =
  generate_ideas fnz svc api' cfg industry date cc /\
  (forall v, generate_ideas fnz svc api cfg industry date cc = Return v ->
             ALLOW_MOCKS cfg = true /\ two_ideas v).
Proof.
  intros Hk. unfold generate_ideas. rewrite Hk. split; [reflexivity|].
  intros v. destruct (get_holidays fnz svc date cc) as [hs|e]; [|discriminate].
  cbn [bind]. destruct (build_prompt industry date hs) as [p|e] eqn:Hp; [|discriminate].
  cbn [bind]. destruct (ALLOW_MOCKS cfg); [|discriminate].
  intros H. split; [reflexivity|].
  destruct (mock_ideas_returns _ _ _ Hp) as (v' & E & Hv). congruence.
Qed.

Lemma generate_ideas_no_key_witness :
  generate_ideas no_floats service_two api_fenced
    {| ANTHROPIC_API_KEY := []; ALLOW_MOCKS := true |}
    (lit "Bakery") (lit "2024-01-01") PL =
  generate_ideas no_floats service_two api_down
    {| ANTHROPIC_API_KEY := []; ALLOW_MOCKS := true |}
    (lit "Bakery") (lit "2024-01-01") PL.
Proof.
  exact (proj1 (@generate_ideas_no_key no_floats service_two api_fenced api_down
                  {| ANTHROPIC_API_KEY := []; ALLOW_MOCKS := true |}
                  (lit "Bakery") (lit "2024-01-01") PL eq_refl)).
Defined.

(** X13: With a key, when the model's text normalises to a value,
    [generate_ideas] returns that value, with the mock fallback on or off. *)
Theorem generate_ideas_success
        (fnz : pystr -> bool) (svc : pystr -> outcome json)
        (api : pystr -> outcome (list pystr)) (cfg : config)
        (industry date cc : pystr) (holidays : list json) (prompt : pystr)
        (t : pystr) (texts : list pystr) (v : json) :
  ANTHROPIC_API_KEY cfg <> [] ->
  get_holidays fnz svc date cc = Return holidays ->
  build_prompt industry date holidays = Return prompt ->
  api prompt = Return (t :: texts) ->
  normalize (strip (join nl (t :: texts))) = Return v ->
  generate_ideas fnz svc api cfg industry date cc = Return v.
Proof.
  intros Hk Hh Hp Ha Hn. unfold generate_ideas.
  rewrite Hh. cbn [bind]. rewrite Hp. cbn [bind].
  unfold _call_anthropic_messages.
  destruct (ANTHROPIC_API_KEY cfg) as [|k ks]; [congruence|].
  rewrite Ha. cbn [bind]. now rewrite Hn.
Qed.

Lemma generate_ideas_success_witness :
  generate_ideas no_floats service_two api_fenced cfg_live
    (lit "Bakery") (lit "2024-01-01") PL = Return (JArray [JInt 1; JInt 2]).
Proof.
  refine (@generate_ideas_success no_floats service_two api_fenced cfg_live
            (lit "Bakery") (lit "2024-01-01") PL _ _ _ _ _
            _ eq_refl eq_refl eq_refl eq_refl).
  discriminate.
Defined.

(** ** Further properties of the handlers *)

Section HandlerResponses.

Variable fnz : pystr -> bool.
Variable gen : json -> json -> json -> outcome json.
Variable str_of : exn -> pystr.

Lemma respond_returns (industry date country : json) :
  exists resp,
    respond gen str_of industry date country = (Return resp, [(industry, date, country)]) /\
    (status resp = 200 \/ status resp = 500).
Proof.
  unfold respond. destruct (gen industry date country) as [ideas|e];
    eexists; (split; [reflexivity|]); [now left | now right].
Qed.

(** X14: The GET handler lets no exception out: every request gets a response
    with status 200, 400 or 500, and [generate_ideas] is called at most
    once, never when the status is 400. *)
Theorem ideas_get_never_raises (args : list (pystr * pystr)) :
  exists resp calls,
    ideas_get fnz gen str_of args = (Return resp, calls) /\
    ((status resp = 400 /\ calls = []) \/
     ((status resp = 200 \/ status resp = 500) /\ length calls = 1)).
Proof.
  unfold ideas_get.
  destruct (negb (truthy fnz (args_get_or args k_industry JNull))
            || negb (truthy fnz (args_get_or args k_date JNull))).
  - do 2 eexists. split; [reflexivity|]. now left.
  - destruct (respond_returns (args_get_or args k_industry JNull)
                (args_get_or args k_date JNull)
                (args_get_or args k_country (JString PL))) as (resp & E & Hs).
    exists resp. eexists. split; [exact E|]. right. now split.
Qed.

Lemma args_get_or_missing (args : list (pystr * pystr)) (k : pystr) (default : json) :
  (forall kv, In kv args -> str_eqb (fst kv) k = false) ->
  args_get_or args k default = default.
Proof.
  induction args as [|[k' v] args IH]; intros H; [reflexivity|].
  pose proof (H (k', v) (or_introl eq_refl)) as E. cbn [fst] in E.
  cbn [args_get_or]. rewrite E. apply IH.
  intros kv Hin. apply H. now right.
Qed.

(** X15: A GET request with a non-empty [industry] and [date] makes exactly one
    call of [generate_ideas], with those values and the country (PL when
    the request names none); its value is returned with status 200, and an
    exception it raises becomes status 500 with [str(e)] as the error. *)
Theorem ideas_get_valid (args : list (pystr * pystr))
        (i0 d0 : char) (i d : pystr) :
  args_get_or args k_industry JNull = JString (i0 :: i) ->
  args_get_or args k_date JNull = JString (d0 :: d) ->
  let country := args_get_or args k_country (JString PL) in
  ideas_get fnz gen str_of args =
  (Return match gen (JString (i0 :: i)) (JString (d0 :: d)) country with
          | Return ideas => {| status := 200; body := ideas |}
          | Raise e => {| status := 500; body := error_object (str_of e) |}
          end,
   [(JString (i0 :: i), JString (d0 :: d), country)]) /\
  ((forall kv, In kv args -> str_eqb (fst kv) k_country = false) ->
   country = JString PL).
Proof.
  intros Hi Hd country. split.
  - unfold ideas_get. rewrite Hi, Hd. cbn [truthy negb orb]. unfold respond.
    fold country. now destruct (gen (JString (i0 :: i)) (JString (d0 :: d)) country).
  - apply args_get_or_missing.
Qed.

(** X18: The POST handler with a JSON object as body lets no exception out:
    the response has status 200, 400 or 500, and [generate_ideas] is
    called at most once, never when the status is 400. *)
Theorem ideas_post_object_never_raises (d : list (pystr * json)) :
  exists resp calls,
    ideas_post fnz gen str_of {| is_json := true; get_json := Return (JObject d) |} =
    (Return resp, calls) /\
    ((status resp = 400 /\ calls = []) \/
     ((status resp = 200 \/ status resp = 500) /\ length calls = 1)).
Proof.
  unfold ideas_post. cbn [is_json get_json negb payload_get_or].
  destruct (negb (truthy fnz (dict_get_or d k_industry JNull))
            || negb (truthy fnz (dict_get_or d k_date JNull))).
  - do 2 eexists. split; [reflexivity|]. now left.
  - destruct (respond_returns (dict_get_or d k_industry JNull)
                (dict_get_or d k_date JNull)
                (dict_get_or d k_country (JString PL))) as (resp & E & Hs).
    exists resp. eexists. split; [exact E|]. right. now split.
Qed.

End HandlerResponses.

Lemma ideas_get_valid_witness :
  ideas_get no_floats gen_failing str_of_message query_bakery =
  (Return {| status := 500; body := error_object failed_msg |},
   [(JString (lit "Bakery"), JString (lit "2024-01-01"), JString PL)]).
Proof.
  exact (proj1 (@ideas_get_valid no_floats gen_failing str_of_message query_bakery
                  66%N 50%N _ _ eq_refl eq_refl)).
Defined.

(** ** Further properties of the recovery *)

Unset Implicit Arguments.

Lemma scan_shape (strict : bool) (n : nat) :
  forall m s v r, scan strict n m s = POk v r -> mode_shape m v.
Proof.
  induction n as [|n IH]; [discriminate|].
  intros m s v r. cbn [scan]. unfold scan_body.
  destruct m as [|acc|values|pairs]; [intros _; exact I| | |].
  - destruct (string_item strict s) as [r0|c r0|]; [| |discriminate].
    + intros H; injection H as <- _. exact I.
    + intros H. exact (IH _ _ _ _ H).
  - destruct (scan strict n MValue s) as [v1 r1| |]; try discriminate.
    destruct (skip_ws r1) as [|d r2]; [discriminate|].
    destruct (d =? 93)%N; [intros H; injection H as <- _; exact I|].
    destruct (d =? 44)%N; [|discriminate].
    intros H. exact (IH _ _ _ _ H).
  - destruct (scan strict n (MString []) s) as [v1 r1| |]; try discriminate.
    destruct v1; try discriminate.
    destruct (skip_ws r1) as [|d r2]; [discriminate|].
    destruct (d =? 58)%N; [|discriminate].
    destruct (scan strict n MValue (skip_ws r2)) as [v2 r4| |]; try discriminate.
    destruct (skip_ws r4) as [|e r6]; [discriminate|].
    destruct (e =? 125)%N; [intros H; injection H as <- _; exact I|].
    destruct (e =? 44)%N; [|discriminate].
    destruct (skip_ws r6) as [|q r8]; [discriminate|].
    destruct (q =? 34)%N; [|discriminate].
    intros H. exact (IH _ _ _ _ H).
Qed.

Lemma is_open_cases (c : char) : is_open c = true -> c = 91%N \/ c = 123%N.
Proof.
  unfold is_open. intros H. apply orb_true_iff in H.
  destruct H as [H | H]; apply N.eqb_eq in H; auto.
Qed.

(** A text that starts with an opening bracket or brace decodes, if at
    all, to a list or a dict. *)
Lemma decode_open_container (strict : bool) (c : char) (s : pystr) (v : json) :
  is_open c = true -> decode strict (c :: s) = Some v -> is_container v = true.
Proof.
  intros Hc. unfold decode.
  assert (Hw : skip_ws (c :: s) = c :: s)
    by (destruct (is_open_cases _ Hc) as [-> | ->]; reflexivity).
  rewrite Hw. unfold enough. simpl length.
  replace (2 * S (length s) + 2) with (S (2 * S (length s) + 1)) by lia.
  cbn [scan].
  destruct (scan_body strict (scan strict (2 * S (length s) + 1)) MValue (c :: s))
    as [v1 r1| |] eqn:F; try discriminate.
  unfold scan_body in F.
  destruct (skip_ws r1); [|discriminate]. intros H; injection H as <-.
  destruct (is_open_cases _ Hc) as [-> | ->]; cbn [N.eqb Pos.eqb] in F.
  - destruct (skip_ws s) as [|d r2]; [discriminate|].
    destruct (d =? 93)%N; [now injection F as <- _|].
    apply scan_shape in F. now destruct v1.
  - destruct (skip_ws s) as [|d r2]; [discriminate|].
    destruct (d =? 125)%N; [now injection F as <- _|].
    destruct (d =? 34)%N; [|discriminate].
    apply scan_shape in F. now destruct v1.
Qed.

Lemma parse_candidate_container (c : char) (s : pystr) (v : json) :
  is_open c = true -> parse_candidate (c :: s) = Some v -> is_container v = true.
Proof.
  intros Hc. unfold parse_candidate, json_loads.
  destruct (decode true (c :: s)) as [v1|] eqn:D1.
  - intros H; injection H as <-. exact (decode_open_container _ _ _ _ Hc D1).
  - destruct (decode false (c :: s)) as [v2|] eqn:D2; [|discriminate].
    intros H; injection H as <-. exact (decode_open_container _ _ _ _ Hc D2).
Qed.

Lemma first_open_skipn (text : pystr) (start : nat) :
  first_open text = Some start ->
  exists c r, skipn start text = c :: r /\ is_open c = true.
Proof.
  revert start. induction text as [|c text IH]; intros start; [discriminate|].
  simpl. destruct (is_open c) eqn:Hc.
  - intros H; injection H as <-. now exists c, text.
  - destruct (first_open text) as [k|]; [|discriminate].
    intros H; injection H as <-. now apply IH.
Qed.

Lemma try_candidates_container (text : pystr) (start : nat) (js : list nat) (v : json) :
  (exists c r, skipn start text = c :: r /\ is_open c = true) ->
  try_candidates text start js = Return v ->
  v = JNull \/ is_container v = true.
Proof.
  intros (c & r & Es & Hc). induction js as [|j js IH].
  - intros H; injection H as <-. now left.
  - rewrite try_candidates_cons.
    destruct (parse_candidate (slice text start j)) as [v'|] eqn:P; [|exact IH].
    intros H; injection H as <-. right.
    unfold slice in P. rewrite Es in P.
    destruct (j - start) as [|k]; [discriminate P|].
    exact (parse_candidate_container _ _ _ Hc P).
Qed.

(** X5: What [_extract_json] recovers is never a bare scalar: it returns
    [None], a list or a dict. *)
Theorem extract_json_container (text : pystr) (v : json) :
  _extract_json text = Return v -> v = JNull \/ is_container v = true.
Proof.
  unfold _extract_json. destruct text as [|c r]; [intros H; injection H as <-; now left|].
  destruct (first_open (c :: r)) as [start|] eqn:F;
    [|intros H; injection H as <-; now left].
  apply try_candidates_container. now apply first_open_skipn.
Qed.

Lemma extract_json_container_witness :
  _extract_json (lit "x = 5 {} y") = Return (JObject []) /\
  (JObject [] = JNull \/ is_container (JObject []) = true).
Proof.
  split; [reflexivity|].
  exact (@extract_json_container (lit "x = 5 {} y") (JObject []) eq_refl).
Defined.

(** Lenient decoding accepts what strict decoding accepts, with the same
    value. *)
Lemma string_item_lenient (s : pystr) :
  string_item true s = SErr \/ string_item false s = string_item true s.
Proof.
  unfold string_item. destruct s as [|c r]; [now left|].
  destruct (c =? 34)%N; [now right|].
  destruct (c =? 92)%N; [now right|].
  destruct (c <? 32)%N; [now left | now right].
Qed.

Lemma scan_lenient (n : nat) :
  forall m s v r, scan true n m s = POk v r -> scan false n m s = POk v r.
Proof.
  induction n as [|n IH]; [discriminate|].
  intros m s v r. cbn [scan]. unfold scan_body.
  destruct m as [|acc|values|pairs].
  - destruct s as [|c s0]; [discriminate|].
    destruct (c =? 34)%N; [apply IH|].
    destruct (c =? 123)%N.
    { destruct (skip_ws s0) as [|d r2]; [discriminate|].
      destruct (d =? 125)%N; [trivial|].
      destruct (d =? 34)%N; [apply IH | discriminate]. }
    destruct (c =? 91)%N; [|trivial].
    destruct (skip_ws s0) as [|d r2]; [discriminate|].
    destruct (d =? 93)%N; [trivial | apply IH].
  - destruct (string_item_lenient s) as [E | E]; rewrite E; [discriminate|].
    destruct (string_item true s); [trivial | apply IH | discriminate].
  - destruct (scan true n MValue s) as [v1 r1| |] eqn:E1; try discriminate.
    rewrite (IH _ _ _ _ E1).
    destruct (skip_ws r1) as [|d r2]; [discriminate|].
    destruct (d =? 93)%N; [trivial|].
    destruct (d =? 44)%N; [apply IH | discriminate].
  - destruct (scan true n (MString []) s) as [v1 r1| |] eqn:E1; try discriminate.
    rewrite (IH _ _ _ _ E1). destruct v1; try discriminate.
    destruct (skip_ws r1) as [|d r2]; [discriminate|].
    destruct (d =? 58)%N; [|discriminate].
    destruct (scan true n MValue (skip_ws r2)) as [v2 r4| |] eqn:E2; try discriminate.
    rewrite (IH _ _ _ _ E2).
    destruct (skip_ws r4) as [|e r6]; [discriminate|].
    destruct (e =? 125)%N; [trivial|].
    destruct (e =? 44)%N; [|discriminate].
    destruct (skip_ws r6) as [|q r8]; [discriminate|].
    destruct (q =? 34)%N; [apply IH | discriminate].
Qed.

Lemma json_loads_lenient (s : pystr) (v : json) :
  json_loads true s = Return v -> json_loads false s = Return v.
Proof.
  unfold json_loads, decode.
  destruct (scan true (enough s) MValue (skip_ws s)) as [v1 r1| |] eqn:E;
    try discriminate.
  now rewrite (scan_lenient _ _ _ _ _ E).
Qed.

(** X6: In the candidate loop of [_extract_json] the lenient parse alone
    decides: a candidate is returned exactly when
    [json.loads(candidate, strict=False)] accepts it, with that value; the
    strict attempt before it never changes the outcome. *)
Theorem try_candidates_lenient (text : pystr) (start j : nat) (js : list nat) :
  try_candidates text start (j :: js) =
  match json_loads false (slice text start j) with
  | Return v => Return v
  | Raise _ => try_candidates text start js
  end.
Proof.
  cbn [try_candidates]. unfold try_except.
  destruct (json_loads true (slice text start j)) as [v|e] eqn:E; [|reflexivity].
  now rewrite (json_loads_lenient _ _ E).
Qed.

(** ** Text before the first bracket *)

Lemma first_open_app (pre text : pystr) :
  no_open pre ->
  first_open (pre ++ text) = option_map (Nat.add (length pre)) (first_open text).
Proof.
  induction 1 as [|c pre Hc _ IH]; simpl.
  - now destruct (first_open text).
  - rewrite Hc, IH. now destruct (first_open text).
Qed.

Lemma slice_app (pre text : pystr) (start j : nat) :
  slice (pre ++ text) (length pre + start) (length pre + j) = slice text start j.
Proof.
  unfold slice. rewrite skipn_app.
  replace (length pre + start - length pre) with start by lia.
  rewrite skipn_all2 by lia.
  now replace (length pre + j - (length pre + start)) with (j - start) by lia.
Qed.

Lemma range_down_empty (hi lo : nat) : hi <= lo -> range_down hi lo = [].
Proof.
  destruct hi as [|h]; [reflexivity|]. intros H. cbn [range_down].
  destruct (Nat.ltb_spec lo (S h)); [lia | reflexivity].
Qed.

Lemma range_down_shift (k hi lo : nat) :
  range_down (k + hi) (k + lo) = map (Nat.add k) (range_down hi lo).
Proof.
  induction hi as [|h IH].
  - rewrite range_down_empty by lia. reflexivity.
  - replace (k + S h) with (S (k + h)) by lia. cbn [range_down].
    destruct (Nat.ltb_spec (k + lo) (S (k + h))), (Nat.ltb_spec lo (S h)); try lia.
    + cbn [map]. rewrite IH. f_equal. lia.
    + reflexivity.
Qed.

Lemma try_candidates_shift (pre text : pystr) (start : nat) (js : list nat) :
  try_candidates (pre ++ text) (length pre + start) (map (Nat.add (length pre)) js) =
  try_candidates text start js.
Proof.
  induction js as [|j js IH]; [reflexivity|].
  cbn [map try_candidates]. now rewrite slice_app, IH.
Qed.

(** X7: Prose before the first bracket or brace does not matter to the
    recovery: [_extract_json] gives the same on the text with and without
    a prefix that holds neither. *)
Theorem extract_json_prefix (pre text : pystr) :
  no_open pre -> _extract_json (pre ++ text) = _extract_json text.
Proof.
  intros Hp. unfold _extract_json.
  rewrite (first_open_app pre text Hp).
  destruct (first_open text) as [start|] eqn:F; cbn [option_map].
  - destruct text as [|c r]; [discriminate F|].
    destruct (pre ++ c :: r) as [|c0 r0] eqn:E; [now destruct pre|].
    rewrite <- E, length_app, range_down_shift. apply try_candidates_shift.
  - destruct (pre ++ text); destruct text; reflexivity.
Qed.

Lemma extract_json_prefix_witness :
  no_open (lit "Here it is: ") /\
  _extract_json (lit "Here it is: " ++ lit "[1,2] extra") =
  _extract_json (lit "[1,2] extra").
Proof.
  assert (H : no_open (lit "Here it is: ")) by (repeat constructor).
  split; [exact H|]. exact (extract_json_prefix _ _ H).
Defined.

(** ** The model's text and the holiday request *)

(** X19: The text [_call_anthropic_messages] returns has no white space around
    it, so when it does not start with a fence the fence stripping of
    [generate_ideas] leaves it as it is. *)
Theorem call_messages_unfenced
        (api : pystr -> outcome (list pystr)) (cfg : config) (prompt raw : pystr) :
  _call_anthropic_messages api cfg prompt = Return raw ->
  startswith raw fence = false ->
  strip raw = raw /\ _strip_code_fence raw = raw.
Proof.
  unfold _call_anthropic_messages. intros H Hf.
  destruct (ANTHROPIC_API_KEY cfg) as [|k ks]; [discriminate|].
  destruct (api prompt) as [[|t texts]|e]; try discriminate.
  cbn [bind] in H. remember (join nl (t :: texts)) as x eqn:Ex. clear Ex.
  injection H as <-.
  assert (E : strip (strip x) = strip x) by apply strip_idem.
  split; [exact E|].
  rewrite strip_code_fence_plain; [exact E | now rewrite E].
Qed.

Lemma call_messages_unfenced_witness :
  _call_anthropic_messages api_prose cfg_live [] = Return (lit "Sorry, no ideas today.") /\
  _strip_code_fence (lit "Sorry, no ideas today.") = lit "Sorry, no ideas today.".
Proof.
  split; [reflexivity|].
  exact (proj2 (call_messages_unfenced api_prose cfg_live []
                  (lit "Sorry, no ideas today.") eq_refl eq_refl)).
Defined.

Lemma split_head_app (year rest : pystr) :
  Forall (fun c => c <> 45%N) year ->
  split_head (year ++ 45%N :: rest) 45%N = year /\ split_head year 45%N = year.
Proof.
  induction 1 as [|c year Hc _ (IH1 & IH2)]; [now split|].
  simpl. destruct (N.eqb_spec c 45) as [E|_]; [now contradiction Hc|].
  now rewrite IH1, IH2.
Qed.

(** X20: The holiday service is asked for the year of the date: for a date
    whose part before the first hyphen is [year], and for a date that is a
    bare [year], the requested URL ends in the year, a slash and the
    country code. *)
Theorem holidays_url_year (year rest cc : pystr) :
  Forall (fun c => c <> 45%N) year ->
  holidays_url_for (year ++ 45%N :: rest) cc = holidays_url ++ year ++ [47%N] ++ cc /\
  holidays_url_for year cc = holidays_url ++ year ++ [47%N] ++ cc.
Proof.
  intros H. unfold holidays_url_for.
  destruct (split_head_app year rest H) as (-> & ->). now split.
Qed.

Lemma holidays_url_year_witness :
  holidays_url_for (lit "2024-01-01") PL =
  lit "https://date.nager.at/api/v3/PublicHolidays/2024/PL".
Proof.
  refine (proj1 (holidays_url_year (lit "2024") (lit "01-01") PL _)).
  repeat constructor; discriminate.
Defined.

(** ** Instances *)

Lemma build_prompt_type_error_witness :
  build_prompt (lit "Bakery") (lit "2024-01-01") [JString (lit "Nowy Rok"); JNull] =
  Raise TypeError /\
  exists p, build_prompt (lit "Bakery") (lit "2024-01-01") [JString (lit "Nowy Rok")] =
            Return p.
Proof.
  split.
  - apply (proj1 (build_prompt_type_error (lit "Bakery") (lit "2024-01-01")
                    [JString (lit "Nowy Rok"); JNull])).
    apply Exists_cons_tl, Exists_cons_hd. reflexivity.
  - apply (proj2 (build_prompt_type_error (lit "Bakery") (lit "2024-01-01")
                    [JString (lit "Nowy Rok")])).
    repeat constructor.
Defined.

Lemma ideas_get_missing_witness :
  missing_or_empty (args_get_or [(k_industry, lit "Bakery")] k_date JNull) /\
  ideas_get no_floats gen_failing str_of_message [(k_industry, lit "Bakery")] =
  (Return (jsonify_status (error_object get_required_msg) 400), []).
Proof.
  assert (H : missing_or_empty (args_get_or [(k_industry, lit "Bakery")] k_date JNull))
    by (left; reflexivity).
  split; [exact H|].
  exact (@ideas_get_missing no_floats gen_failing str_of_message
           [(k_industry, lit "Bakery")] (or_intror H)).
Defined.

Lemma ideas_post_missing_witness :
  missing_or_empty (dict_get_or [(k_date, JString (lit "2024-01-01"))] k_industry JNull) /\
  ideas_post no_floats gen_failing str_of_message
    {| is_json := true;
       get_json := Return (JObject [(k_date, JString (lit "2024-01-01"))]) |} =
  (Return (jsonify_status (error_object post_required_msg) 400), []).
Proof.
  assert (H : missing_or_empty
                (dict_get_or [(k_date, JString (lit "2024-01-01"))] k_industry JNull))
    by (left; reflexivity).
  split; [exact H|].
  exact (@ideas_post_missing no_floats gen_failing str_of_message
           [(k_date, JString (lit "2024-01-01"))] (or_introl H)).
Defined.
